(** * Wilco EC debugfs: the [raw] attribute

    A verification model of
    [drivers/platform/chrome/wilco_ec/debugfs.c] (Linux 5.1.5): the
    hexadecimal sentence parser [parse_hex_sentence], and the two file
    operations [raw_write] and [raw_read] on the driver's single
    [debug_info] object.


    Kernel facilities that the file only calls ([isspace], [kstrtou8],
    [copy_from_user], [copy_to_user], [hex_dump_to_buffer],
    [wilco_ec_mailbox]) and the constants of
    [linux/platform_data/wilco-ec.h] are parameters of the development. *)

From Equations Require Import Equations.
From Stdlib Require Import String ZArith Lia Bool Ascii List.
From Stdlib.Strings Require Import Byte.
Import ListNotations.

Local Open Scope Z_scope.

(** ** Data *)

(** A [u8] is a [byte]; [u8_val] is its value as a C integer. *)
Definition u8_val (b : byte) : Z := Z.of_N (Byte.to_N b).

(** [#define MAX_WORD_SIZE 16] *)
Definition MAX_WORD_SIZE : nat := 16.

(** The result of [parse_hex_sentence]: "Number of bytes parsed, or negative
    error code on failure".  [Parsed out] stands for the return value
    [length out] with [out[0..n_parsed)] filled in; [Failed e] for the
    return value [-e]. *)
Inductive parse_result : Type :=
| Parsed (out : list byte)
| Failed (errno : Z).

Definition parse_ret (r : parse_result) : Z :=
  match r with
  | Parsed out => Z.of_nat (length out)
  | Failed e => - e
  end.

(** The string that a NUL-terminated buffer denotes: the characters before
    the first NUL.  [tmp] is handed to [kstrtou8] as such a string. *)
Fixpoint c_str (tmp : list ascii) : list ascii :=
  match tmp with
  | [] => []
  | c :: tmp' => if Ascii.eqb c zero then [] else c :: c_str tmp'
  end.

(** [inspect x] lets a definition match on [x] and keep the equation with
    the matched pattern. *)
Definition inspect {A : Type} (x : A) : { y : A | x = y } := exist _ x eq_refl.

(** ** The kernel interfaces the driver calls

    None of these is defined in [debugfs.c]; the model takes them as the
    fields of two interfaces. *)

(** Library routines and [errno]. *)
Class KernelLib : Type := {
  (** [isspace] of [linux/ctype.h]. *)
  isspace : ascii -> bool;
  (** [kstrtou8(s, base, &res)] of [linux/kernel.h]: [Some res] when it
      returns 0, [None] when it returns an error code. *)
  kstrtou8 : list ascii -> Z -> option byte;
  (** [EINVAL] and [EFAULT] of [errno-base.h]. *)
  EINVAL : Z;
  EFAULT : Z;
  (** [hex_dump_to_buffer(buf, len, rowsize, groupsize, linebuf, linebuflen,
      ascii)] of [linux/printk.h]: its return value and the characters it
      stores at the start of [linebuf]. *)
  hex_dump_to_buffer : list byte -> Z -> Z -> Z -> Z -> bool -> Z * list ascii;
  (** [copy_from_user(to, from, n)] and [copy_to_user(to, from, n)] of
      [linux/uaccess.h], given the [n] characters to copy: the number of
      characters that could not be copied. *)
  copy_from_user : list ascii -> Z;
  copy_to_user : list ascii -> Z
}.

(** [struct wilco_ec_message] of [linux/platform_data/wilco-ec.h], as far as
    [raw_write] fills it in.  [request_data] is [None] for the null pointer;
    [response_data] always points to [debug_info->raw_data] and is passed to
    the mailbox beside the message. *)
Module Msg.
Record wilco_ec_message : Type := {
  type : Z;
  flags : Z;
  command : byte;
  request_data : option (list byte);
  request_size : Z;
  response_size : Z
}.
End Msg.
Abbreviation wilco_ec_message := Msg.wilco_ec_message.

(** The constants of [linux/platform_data/wilco-ec.h] and the mailbox. *)
Class WilcoEc : Type := {
  EC_MAILBOX_DATA_SIZE : Z;
  EC_MAILBOX_DATA_SIZE_EXTENDED : Z;
  WILCO_EC_FLAG_RAW : Z;
  WILCO_EC_FLAG_EXTENDED_DATA : Z;
  WILCO_EC_MSG_TELEMETRY_LONG : Z;
  (** The state of [struct wilco_ec_device] and of the controller behind it. *)
  wilco_ec_device : Type;
  (** [wilco_ec_mailbox(ec, &msg)] on the device [ec], with the contents of
      the buffer [msg.response_data] points to: the return value, the new
      contents of that buffer and the new device state. *)
  wilco_ec_mailbox :
    wilco_ec_device -> wilco_ec_message -> list byte ->
    Z * list byte * wilco_ec_device
}.

Section Driver.

Context {K : KernelLib} {W : WilcoEc}.

(** *** [parse_hex_sentence] *)

(** [while (word_start < isize && isspace(in[word_start])) word_start++;]
    The argument is the input from [word_start] on, the result the input
    from the new [word_start] on. *)
Fixpoint skip_spaces (s : list ascii) : list ascii :=
  match s with
  | [] => []
  | c :: s' => if isspace c then skip_spaces s' else s
  end.

(** [word_end = word_start;
     while (word_end < isize && !isspace(in[word_end])) word_end++;]
    The result is the word [in[word_start..word_end)] and the input from
    [word_end] on. *)
Fixpoint word_span (s : list ascii) : list ascii * list ascii :=
  match s with
  | [] => ([], [])
  | c :: s' =>
      if isspace c then ([], s)
      else let (w, rest) := word_span s' in (c :: w, rest)
  end.

(** The outer loop of [parse_hex_sentence].  [s] is the input from
    [word_start] on (so [word_start < isize] is [s <> []]), [out] the
    bytes stored so far (so [n_parsed] is [length out]). *)
Equations? parse_loop (osize : Z) (s : list ascii) (out : list byte)
  : parse_result by wf (length s) lt :=
  parse_loop osize s out
    with negb (Nat.eqb (length s) 0) && (Z.of_nat (length out) <? osize) := {
    | false := Parsed out
    | true with inspect (skip_spaces s) := {
      | exist _ [] _ := Parsed out
      | exist _ (c :: s1) Hskip with inspect (word_span (c :: s1)) := {
        | exist _ (w, rest) Hspan with Nat.ltb MAX_WORD_SIZE (length w) := {
          | true := Failed EINVAL
          | false with kstrtou8 (c_str w) 16 := {
            | None := Failed EINVAL
            | Some b := parse_loop osize rest (out ++ [b]) } } } } }.
Proof.
  assert (Hle : forall t, (length (skip_spaces t) <= length t)%nat).
  { induction t as [|a t IH]; simpl; [lia|]. destruct (isspace a); simpl; lia. }
  assert (Hhd : forall t a t', skip_spaces t = a :: t' -> isspace a = false).
  { induction t as [|a0 t IH]; simpl; intros a t' E; [discriminate|].
    destruct (isspace a0) eqn:Ea; [eauto|]. injection E as -> _. exact Ea. }
  assert (Hsp : forall t, (length (snd (word_span t)) <= length t)%nat).
  { induction t as [|a t IH]; simpl; [lia|].
    destruct (isspace a); simpl; [lia|].
    destruct (word_span t); simpl in *; lia. }
  pose proof (Hle s) as H1. rewrite Hskip in H1.
  pose proof (Hhd _ _ _ Hskip) as H2.
  simpl in Hspan. rewrite H2 in Hspan.
  pose proof (Hsp s1) as H3.
  destruct (word_span s1) as [w' r']. injection Hspan as _ <-.
  simpl in *. lia.
Qed.

(** [parse_hex_sentence(in, isize, out, osize)] with [input] the [isize]
    characters of [in]. *)
Definition parse_hex_sentence (input : list ascii) (osize : Z) : parse_result :=
  parse_loop osize input [].

(** Input that does not continue a word ending right before it: nothing,
    or something that starts with whitespace. *)
Definition word_break (rest : list ascii) : bool :=
  match rest with
  | [] => true
  | c :: _ => isspace c
  end.

(** *** Sentences of legal words *)

(** A word that the parser turns into the byte [b]: at least one and at
    most [MAX_WORD_SIZE] characters, none of them whitespace, which
    [kstrtou8] converts to [b]. *)
Definition legal_word (w : list ascii) (b : byte) : Prop :=
  w <> [] /\
  Forall (fun c => isspace c = false) w /\
  (length w <= MAX_WORD_SIZE)%nat /\
  kstrtou8 (c_str w) 16 = Some b.

(** The text of a sentence given as its words, each with the whitespace in
    front of it and the byte it stands for. *)
Fixpoint sentence (items : list (list ascii * list ascii * byte)) : list ascii :=
  match items with
  | [] => []
  | (gap, w, _) :: items' => gap ++ w ++ sentence items'
  end.

Definition sentence_bytes (items : list (list ascii * list ascii * byte))
  : list byte :=
  map snd items.

(** Every word is legal and preceded by whitespace only. *)
Definition legal_items (items : list (list ascii * list ascii * byte)) : Prop :=
  Forall (fun it => Forall (fun c => isspace c = true) (fst (fst it)) /\
                    legal_word (snd (fst it)) (snd it)) items.

(** Every word is set off from the word before it. *)
Definition gapped (items : list (list ascii * list ascii * byte)) : Prop :=
  Forall (fun it => fst (fst it) <> []) items.

(** A sentence of legal words: between two words there is whitespace;
    there need be none in front of the first. *)
Definition legal_sentence (items : list (list ascii * list ascii * byte)) : Prop :=
  legal_items items /\ gapped (tl items).

(** *** The driver's state *)

(** [#define FORMATTED_BUFFER_SIZE (EC_MAILBOX_DATA_SIZE_EXTENDED * 4)] *)
Definition FORMATTED_BUFFER_SIZE : Z := EC_MAILBOX_DATA_SIZE_EXTENDED * 4.

(** [#define TYPE_AND_DATA_SIZE ((EC_MAILBOX_DATA_SIZE) + 2)] *)
Definition TYPE_AND_DATA_SIZE : Z := EC_MAILBOX_DATA_SIZE + 2.

(** [struct wilco_ec_debugfs], the object [debug_info] points to.  [ec] is
    the device the pointer of that name refers to; [dir] plays no part in
    reading and writing and is left out. *)
Record wilco_ec_debugfs : Type := {
  ec : wilco_ec_device;
  response_size : Z;
  raw_data : list byte;
  formatted_data : list ascii
}.

(** Storing [data] at the start of a buffer with contents [buf]. *)
Definition buf_store {A : Type} (data buf : list A) : list A :=
  data ++ skipn (length data) buf.

(** Storing [data] at offset [pos] of a buffer with contents [buf]. *)
Definition store_at {A : Type} (pos : nat) (data buf : list A) : list A :=
  firstn pos buf ++ data ++ skipn (pos + length data) buf.

(** Modelled from the spec: [simple_write_to_buffer] of [fs/libfs.c] is
    missing, and the spec's write has no file position; this is the helper
    as the kernel documents it.  [simple_write_to_buffer(to, available,
    ppos, from, count)] with [from] the [count] characters of the user's
    buffer: the return value, the new contents of [to] and the new
    [*ppos].  A negative position is an error; at or past [available], or
    with nothing to write, nothing happens; otherwise as much of [from] as
    fits is copied to offset [*ppos] and the position moves on. *)
Definition simple_write_to_buffer (to : list ascii) (available ppos : Z)
  (from : list ascii) : Z * list ascii * Z :=
  let pos := ppos in
  let count := Z.of_nat (length from) in
  if pos <? 0 then (- EINVAL, to, ppos)
  else if (available <=? pos) || (count =? 0) then (0, to, ppos)
  else
    let count := if available - pos <? count then available - pos else count in
    let res := copy_from_user (firstn (Z.to_nat count) from) in
    if res =? count then (- EFAULT, to, ppos)
    else
      let count := count - res in
      (count,
       store_at (Z.to_nat pos) (firstn (Z.to_nat count) from) to,
       pos + count).

(** Modelled from the spec: [simple_read_from_buffer] of [fs/libfs.c] is
    missing, and the spec's read has neither a count nor a file position;
    this is the helper as the kernel documents it.
    [simple_read_from_buffer(to, count, ppos, from, available)]: the return
    value, the characters copied to the user's buffer and the new [*ppos].
    At most [count] characters are copied, from offset [*ppos] of [from] and
    not beyond [available]. *)
Definition simple_read_from_buffer (count ppos : Z) (from : list ascii)
  (available : Z) : Z * list ascii * Z :=
  let pos := ppos in
  if pos <? 0 then (- EINVAL, [], ppos)
  else if (available <=? pos) || (count =? 0) then (0, [], ppos)
  else
    let count := if available - pos <? count then available - pos else count in
    let chunk := firstn (Z.to_nat count) (skipn (Z.to_nat pos) from) in
    let ret := copy_to_user chunk in
    if ret =? count then (- EFAULT, [], ppos)
    else
      let count := count - ret in
      (count, firstn (Z.to_nat count) chunk, pos + count).

(** What a call of [raw_write] leaves behind: its return value, the new
    [*debug_info], the messages it handed to [wilco_ec_mailbox], and the
    new [*ppos]. *)
Record write_result : Type := {
  wr_ret : Z;
  wr_info : wilco_ec_debugfs;
  wr_mailbox : list wilco_ec_message;
  wr_ppos : Z
}.

(** Lines 146-158 of [raw_write]: the message built from the [ret] parsed
    bytes in [request_data]. *)
Definition build_msg (request_data : list byte) : wilco_ec_message :=
  let ret := Z.of_nat (length request_data) in
  let type :=
    Z.lor (Z.shiftl (u8_val (nth 0 request_data x00)) 8)
          (u8_val (nth 1 request_data x00)) in
  let extended := type =? WILCO_EC_MSG_TELEMETRY_LONG in
  {| Msg.type := type;
     Msg.flags :=
       if extended
       then Z.lor WILCO_EC_FLAG_RAW WILCO_EC_FLAG_EXTENDED_DATA
       else WILCO_EC_FLAG_RAW;
     Msg.command := nth 2 request_data x00;
     Msg.request_data :=
       if 3 <? ret then Some (skipn 3 request_data) else None;
     Msg.request_size := ret - 3;
     Msg.response_size :=
       if extended
       then EC_MAILBOX_DATA_SIZE_EXTENDED
       else EC_MAILBOX_DATA_SIZE |}.

(** The [request_size] bytes [request_data] points to. *)
Definition payload (msg : wilco_ec_message) : list byte :=
  match Msg.request_data msg with
  | Some bytes => bytes
  | None => []
  end.

(** [raw_write(file, user_buf, count, ppos)] with [text] the [count]
    characters of [user_buf] and [ppos] the value of [*ppos]. *)
Definition raw_write (text : list ascii) (ppos : Z) (d : wilco_ec_debugfs)
  : write_result :=
  let count := Z.of_nat (length text) in
  if FORMATTED_BUFFER_SIZE <? count then
    {| wr_ret := - EINVAL; wr_info := d; wr_mailbox := []; wr_ppos := ppos |}
  else
    let '(kcount, buf, ppos') :=
      simple_write_to_buffer (formatted_data d) FORMATTED_BUFFER_SIZE ppos text in
    let d1 := {| ec := ec d; response_size := response_size d;
                 raw_data := raw_data d; formatted_data := buf |} in
    if kcount <? 0 then
      {| wr_ret := kcount; wr_info := d1; wr_mailbox := []; wr_ppos := ppos' |}
    else
      match parse_hex_sentence (firstn (Z.to_nat kcount) buf) TYPE_AND_DATA_SIZE with
      | Failed e =>
          {| wr_ret := - e; wr_info := d1; wr_mailbox := []; wr_ppos := ppos' |}
      | Parsed request_data =>
          let ret := Z.of_nat (length request_data) in
          if ret <? 3 then
            {| wr_ret := - EINVAL; wr_info := d1; wr_mailbox := [];
               wr_ppos := ppos' |}
          else
            let cleared :=
              repeat x00 (Z.to_nat EC_MAILBOX_DATA_SIZE_EXTENDED) in
            let msg := build_msg request_data in
            let '(ret, response, ec') := wilco_ec_mailbox (ec d) msg cleared in
            if ret <? 0 then
              {| wr_ret := ret;
                 wr_info := {| ec := ec'; response_size := response_size d;
                               raw_data := response; formatted_data := buf |};
                 wr_mailbox := [msg]; wr_ppos := ppos' |}
            else
              {| wr_ret := count;
                 wr_info := {| ec := ec'; response_size := ret;
                               raw_data := response; formatted_data := buf |};
                 wr_mailbox := [msg]; wr_ppos := ppos' |}
      end.

(** The ways in which [raw_write] returns before the [memset]: the text is
    too long, the copy fails, the parser fails on what it is given, or it
    finds fewer than three bytes there. *)
Definition returns_early (text : list ascii) (ppos : Z) (d : wilco_ec_debugfs)
  : Prop :=
  FORMATTED_BUFFER_SIZE < Z.of_nat (length text) \/
  let '(kcount, buf, _) :=
    simple_write_to_buffer (formatted_data d) FORMATTED_BUFFER_SIZE ppos text in
  kcount < 0 \/
  match parse_hex_sentence (firstn (Z.to_nat kcount) buf) TYPE_AND_DATA_SIZE with
  | Failed _ => True
  | Parsed request_data => Z.of_nat (length request_data) < 3
  end.

(** What a call of [raw_read] leaves behind: its return value, the
    characters copied to [user_buf], the new [*debug_info] and the new
    [*ppos]. *)
Record read_result : Type := {
  rd_ret : Z;
  rd_text : list ascii;
  rd_info : wilco_ec_debugfs;
  rd_ppos : Z
}.

(** Lines 171-180 of [raw_read]: [fmt_len] and the new [*debug_info]. *)
Definition format_response (d : wilco_ec_debugfs) : Z * wilco_ec_debugfs :=
  if response_size d =? 0 then (0, d)
  else
    let '(fmt_len, line) :=
      hex_dump_to_buffer (raw_data d) (response_size d) 16 1
                         FORMATTED_BUFFER_SIZE true in
    (fmt_len,
     {| ec := ec d; response_size := 0; raw_data := raw_data d;
        formatted_data := buf_store line (formatted_data d) |}).

(** [raw_read(file, user_buf, count, ppos)] with [ppos] the value of
    [*ppos]. *)
Definition raw_read (count ppos : Z) (d : wilco_ec_debugfs) : read_result :=
  let '(fmt_len, d') := format_response d in
  let '(ret, copied, ppos') :=
    simple_read_from_buffer count ppos (formatted_data d') fmt_len in
  {| rd_ret := ret; rd_text := copied; rd_info := d'; rd_ppos := ppos' |}.

(** The two states of the session: [response_size] is the flag that tells
    whether a response is waiting to be read. *)
Inductive session_state : Type := Idle | HasResponse.

Definition state_of (d : wilco_ec_debugfs) : session_state :=
  if response_size d =? 0 then Idle else HasResponse.

(** Two sessions that differ at most in the text buffer [formatted_data]. *)
Definition same_session (d1 d2 : wilco_ec_debugfs) : Prop :=
  ec d1 = ec d2 /\
  response_size d1 = response_size d2 /\
  raw_data d1 = raw_data d2.

(** *** Calls that overlap

    [struct wilco_ec_debugfs] has no lock among its members and neither
    [raw_write] nor [raw_read] takes one, so two callers' statements on
    [*debug_info] may alternate.  Each call is a thread that advances by
    the statements below; a schedule says which thread moves next. *)

(** Where a call of [raw_write] stands, with its local variables. *)
Inductive write_pc : Type :=
| W_entry (text : list ascii) (ppos : Z)
    (** before line 128 *)
| W_parsed (count : Z) (request_data : list byte)
    (** after the checks of lines 128-141, before the [memset] *)
| W_cleared (count : Z) (request_data : list byte)
    (** after the [memset] of line 144, before the mailbox *)
| W_replied (count : Z) (ret : Z)
    (** after [wilco_ec_mailbox] of line 160 has returned [ret] *)
| W_return (ret : Z).

(** Where a call of [raw_read] stands, with its local variable. *)
Inductive read_pc : Type :=
| R_entry (count ppos : Z)
    (** before line 173 *)
| R_formatted (count ppos : Z) (fmt_len : Z)
    (** after [hex_dump_to_buffer], before [response_size = 0] *)
| R_copy (count ppos : Z) (fmt_len : Z)
    (** before [simple_read_from_buffer] of line 182 *)
| R_return (ret : Z) (text : list ascii).

Definition write_step (pc : write_pc) (d : wilco_ec_debugfs)
  : write_pc * wilco_ec_debugfs :=
  match pc with
  | W_entry text ppos =>
      let count := Z.of_nat (length text) in
      if FORMATTED_BUFFER_SIZE <? count then (W_return (- EINVAL), d)
      else
        let '(kcount, buf, _) :=
          simple_write_to_buffer (formatted_data d) FORMATTED_BUFFER_SIZE
                                 ppos text in
        let d1 := {| ec := ec d; response_size := response_size d;
                     raw_data := raw_data d; formatted_data := buf |} in
        if kcount <? 0 then (W_return kcount, d1)
        else
          match parse_hex_sentence (firstn (Z.to_nat kcount) buf)
                                   TYPE_AND_DATA_SIZE with
          | Failed e => (W_return (- e), d1)
          | Parsed request_data =>
              if Z.of_nat (length request_data) <? 3
              then (W_return (- EINVAL), d1)
              else (W_parsed count request_data, d1)
          end
  | W_parsed count request_data =>
      (W_cleared count request_data,
       {| ec := ec d; response_size := response_size d;
          raw_data := repeat x00 (Z.to_nat EC_MAILBOX_DATA_SIZE_EXTENDED);
          formatted_data := formatted_data d |})
  | W_cleared count request_data =>
      let '(ret, response, ec') :=
        wilco_ec_mailbox (ec d) (build_msg request_data) (raw_data d) in
      (W_replied count ret,
       {| ec := ec'; response_size := response_size d;
          raw_data := response; formatted_data := formatted_data d |})
  | W_replied count ret =>
      if ret <? 0 then (W_return ret, d)
      else (W_return count,
            {| ec := ec d; response_size := ret;
               raw_data := raw_data d; formatted_data := formatted_data d |})
  | W_return ret => (W_return ret, d)
  end.

Definition read_step (pc : read_pc) (d : wilco_ec_debugfs)
  : read_pc * wilco_ec_debugfs :=
  match pc with
  | R_entry count ppos =>
      if response_size d =? 0 then (R_copy count ppos 0, d)
      else
        let '(fmt_len, line) :=
          hex_dump_to_buffer (raw_data d) (response_size d) 16 1
                             FORMATTED_BUFFER_SIZE true in
        (R_formatted count ppos fmt_len,
         {| ec := ec d; response_size := response_size d;
            raw_data := raw_data d;
            formatted_data := buf_store line (formatted_data d) |})
  | R_formatted count ppos fmt_len =>
      (R_copy count ppos fmt_len,
       {| ec := ec d; response_size := 0;
          raw_data := raw_data d; formatted_data := formatted_data d |})
  | R_copy count ppos fmt_len =>
      let '(ret, copied, _) :=
        simple_read_from_buffer count ppos (formatted_data d) fmt_len in
      (R_return ret copied, d)
  | R_return ret text => (R_return ret text, d)
  end.

(** The two callers. *)
Inductive caller : Type := Writer | Reader.

(** One writer and one reader at work on [*debug_info]. *)
Record overlap : Type := {
  writer : write_pc;
  reader : read_pc;
  info : wilco_ec_debugfs
}.

Definition overlap_step (c : overlap) (who : caller) : overlap :=
  match who with
  | Writer =>
      let (pc, d) := write_step (writer c) (info c) in
      {| writer := pc; reader := reader c; info := d |}
  | Reader =>
      let (pc, d) := read_step (reader c) (info c) in
      {| writer := writer c; reader := pc; info := d |}
  end.

Definition run (schedule : list caller) (c : overlap) : overlap :=
  fold_left overlap_step schedule c.

(** A write of [text] at position [wpos] and a read of up to [count]
    characters at position [rpos], both about to start. *)
Definition overlap_start (text : list ascii) (wpos count rpos : Z)
  (d : wilco_ec_debugfs) : overlap :=
  {| writer := W_entry text wpos; reader := R_entry count rpos; info := d |}.

(** Both calls have returned: the writer's return value and the text the
    reader was given. *)
Definition returned (c : overlap) : option (Z * list ascii) :=
  match writer c, reader c with
  | W_return ret, R_return _ text => Some (ret, text)
  | _, _ => None
  end.

(** The claim of mutual exclusion for a write and a read on [d]: whatever
    the schedule, once both calls have returned the reader has the text of
    a read before the write or of a read after it. *)
Definition read_sees_before_or_after (text : list ascii) (wpos count rpos : Z)
  (d : wilco_ec_debugfs) : Prop :=
  forall schedule ret seen,
    returned (run schedule (overlap_start text wpos count rpos d))
      = Some (ret, seen) ->
    seen = rd_text (raw_read count rpos d) \/
    seen = rd_text (raw_read count rpos (wr_info (raw_write text wpos d))).

(** *** Buffer sizes and the probe *)

(** The two arrays of [struct wilco_ec_debugfs] have their declared sizes:
    [u8 raw_data[EC_MAILBOX_DATA_SIZE_EXTENDED]] and
    [u8 formatted_data[FORMATTED_BUFFER_SIZE]]. *)
Definition well_sized (d : wilco_ec_debugfs) : Prop :=
  length (raw_data d) = Z.to_nat EC_MAILBOX_DATA_SIZE_EXTENDED /\
  length (formatted_data d) = Z.to_nat FORMATTED_BUFFER_SIZE.

(** What [wilco_ec_debugfs_probe] leaves behind: its return value, the
    object [debug_info] points to (none if [devm_kzalloc] returned the null
    pointer), whether [debug_info->dir] is a directory, and whether
    [debugfs_create_file] was called for the file [raw] with [fops_raw]. *)
Record probe_result : Type := {
  probe_ret : Z;
  probe_info : option wilco_ec_debugfs;
  probe_dir : bool;
  probe_raw : bool
}.

(** [wilco_ec_debugfs_probe(pdev)], with [drvdata] the device that
    [dev_get_drvdata(pdev->dev.parent)] returns and with the outcomes of
    [devm_kzalloc] and [debugfs_create_dir] ([true] for a pointer that is
    not null).  [devm_kzalloc] returns zeroed memory. *)
Definition wilco_ec_debugfs_probe (drvdata : wilco_ec_device)
  (devm_kzalloc debugfs_create_dir : bool) : probe_result :=
  if negb devm_kzalloc then
    {| probe_ret := 0; probe_info := None;
       probe_dir := false; probe_raw := false |}
  else
    let debug_info :=
      {| ec := drvdata;
         response_size := 0;
         raw_data := repeat x00 (Z.to_nat EC_MAILBOX_DATA_SIZE_EXTENDED);
         formatted_data := repeat zero (Z.to_nat FORMATTED_BUFFER_SIZE) |} in
    if negb debugfs_create_dir then
      {| probe_ret := 0; probe_info := Some debug_info;
         probe_dir := false; probe_raw := false |}
    else
      {| probe_ret := 0; probe_info := Some debug_info;
         probe_dir := true; probe_raw := true |}.

End Driver.

(** ** Reference instances of the interfaces *)

(** Modelled from the spec: [isspace] of [linux/ctype.h] is missing; the
    spec separates words by "whitespace characters", taken here as the
    space and the five control characters tab to carriage return. *)
Definition isspace_model (c : ascii) : bool :=
  let n := N_of_ascii c in
  (N.eqb n 32 || (N.leb 9 n && N.leb n 13))%bool.

(** The value of a hexadecimal digit, "case-insensitive hex digits". *)
Definition hex_digit (c : ascii) : option N :=
  let n := N_of_ascii c in
  if (N.leb 48 n && N.leb n 57)%bool then Some (n - 48)%N
  else if (N.leb 97 n && N.leb n 102)%bool then Some (n - 87)%N
  else if (N.leb 65 n && N.leb n 70)%bool then Some (n - 55)%N
  else None.

Fixpoint hex_value (acc : N) (s : list ascii) : option N :=
  match s with
  | [] => Some acc
  | c :: s' =>
      match hex_digit c with
      | Some d => hex_value (16 * acc + d)%N s'
      | None => None
      end
  end.

(** Modelled from the spec: [kstrtou8] of [linux/kernel.h] is missing; "each
    word is parsed as a base-16 unsigned integer in the range 0..255; a word
    containing non-hex characters or exceeding 255 after accounting for
    leading zeros fails". *)
Definition kstrtou8_model (s : list ascii) (base : Z) : option byte :=
  match s with
  | [] => None
  | _ :: _ =>
      match hex_value 0 s with
      | Some n => Byte.of_N n
      | None => None
      end
  end.

(** The digit for a value below sixteen, in lower case. *)
Definition hex_char (n : N) : ascii :=
  if N.ltb n 10 then ascii_of_N (48 + n) else ascii_of_N (87 + n).

(** The "two-digit hex byte value" of a byte. *)
Definition hex_byte (b : byte) : list ascii :=
  let n := Byte.to_N b in
  [hex_char (n / 16); hex_char (n mod 16)].

(** The byte values of a row, "separated by single spaces". *)
Fixpoint hex_field (row : list byte) : list ascii :=
  match row with
  | [] => []
  | b :: row' =>
      match row' with
      | [] => hex_byte b
      | _ :: _ => hex_byte b ++ " "%char :: hex_field row'
      end
  end.

(** A byte is printable when it is a graphic ASCII character or the space. *)
Definition printable (b : byte) : bool :=
  let n := Byte.to_N b in
  (N.leb 32 n && N.leb n 126)%bool.

(** The "printable-ASCII rendition" of a byte, with the dot as the
    "placeholder character" for the others. *)
Definition ascii_char (b : byte) : ascii :=
  if printable b then ascii_of_byte b else "."%char.

Definition ascii_column (row : list byte) : list ascii := map ascii_char row.

(** One line of a dump: the hex values and, if asked for, blanks up to the
    column [column] and the ASCII rendition. *)
Definition dump_line (column : nat) (with_ascii : bool) (row : list byte)
  : list ascii :=
  hex_field row
  ++ (if with_ascii
      then repeat " "%char (column - length (hex_field row)) ++ ascii_column row
      else []).

(** Modelled from the spec: [hex_dump_to_buffer] of [lib/hexdump.c] is
    missing.  The spec's formatter renders "space-separated two-digit hex
    byte values, followed by a printable-ASCII rendition of the same bytes
    (non-printable bytes rendered as a placeholder character)" within a
    "bounded output capacity"; it also speaks of several lines with an
    offset label each, which the output shown in the driver's header
    comment does not have.  The model is the helper of Linux 5.1 for groups
    of one byte, which by its documentation "works on one line of output at
    a time, i.e., 16 or 32 bytes of input data converted to hex + ASCII
    output": it formats one line, of at most [rowsize] bytes, without label
    or newline, the ASCII rendition starting in column
    [rowsize * 2 + rowsize + 1]; it ends the line with a NUL, and when the
    line does not fit [linebuflen] it stores what fits and returns the
    length the whole line would have. *)
Definition hex_dump_model (buf : list byte) (len rowsize groupsize linebuflen : Z)
  (with_ascii : bool) : Z * list ascii :=
  let rowsize := if (rowsize =? 16) || (rowsize =? 32) then rowsize else 16 in
  let len := if rowsize <? len then rowsize else len in
  let row := firstn (Z.to_nat len) buf in
  let column := rowsize * 2 + rowsize + 1 in
  let line := dump_line (Z.to_nat column) with_ascii row in
  let whole := if with_ascii then column + len else 3 * len - 1 in
  if linebuflen =? 0 then (whole, [])
  else if len =? 0 then (0, [zero])
  else if Z.of_nat (length line) <? linebuflen
       then (Z.of_nat (length line), line ++ [zero])
       else (whole, firstn (Z.to_nat (linebuflen - 1)) line ++ [zero]).

(** The library as the spec describes it; copies from and to user space
    succeed. *)
#[export] Instance kernel_model : KernelLib := {|
  isspace := isspace_model;
  kstrtou8 := kstrtou8_model;
  EINVAL := 22;
  EFAULT := 14;
  hex_dump_to_buffer := hex_dump_model;
  copy_from_user := fun _ => 0;
  copy_to_user := fun _ => 0
|}.

(** The mailbox of a scripted controller: the device is the list of the
    replies still to give, each a return value and the bytes stored in the
    response buffer; with no reply left the call fails with [-EIO]. *)
Definition scripted_mailbox (dev : list (Z * list byte))
  (msg : wilco_ec_message) (response_data : list byte)
  : Z * list byte * list (Z * list byte) :=
  match dev with
  | [] => (-5, response_data, [])
  | (ret, bytes) :: dev' => (ret, buf_store bytes response_data, dev')
  end.

(** Modelled from the spec: [linux/platform_data/wilco-ec.h] is missing; the
    spec names a default and a larger extended response capacity, a raw and
    an extended flag and a reserved extended message type, and tests the
    session against a mock transport.  The values are those of the header
    of Linux 5.1 (32 and 256 bytes, bits 2 and 3 for raw, bit 1 for extended
    data, type [0x00f6]). *)
#[export] Instance wilco_ec_scripted : WilcoEc := {|
  EC_MAILBOX_DATA_SIZE := 32;
  EC_MAILBOX_DATA_SIZE_EXTENDED := 256;
  WILCO_EC_FLAG_RAW := 12;
  WILCO_EC_FLAG_EXTENDED_DATA := 2;
  WILCO_EC_MSG_TELEMETRY_LONG := 246;
  wilco_ec_device := list (Z * list byte);
  wilco_ec_mailbox := scripted_mailbox
|}.

(** *** Sample sessions and texts *)

(** The characters of a text. *)
Definition text (s : string) : list ascii := list_ascii_of_string s.

(** A session on a scripted controller with the given replies to come,
    holding [response_size] and the given bytes at the start of [raw_data];
    the two buffers have their sizes, 256 and 1024. *)
Definition session (replies : list (Z * list byte)) (size : Z)
  (response : list byte) : @wilco_ec_debugfs wilco_ec_scripted :=
  {| ec := replies;
     response_size := size;
     raw_data := buf_store response (repeat x00 256);
     formatted_data := repeat zero 1024 |}.

(** The session of a freshly probed driver, all zero, on a controller with
    the given replies to come. *)
Definition fresh_session (replies : list (Z * list byte))
  : @wilco_ec_debugfs wilco_ec_scripted :=
  session replies 0 [].

(** The session after the write of the header comment's sentence, to a file
    just opened, has been answered with the two bytes [31 32], not yet
    read.  The file position is then 17. *)
Definition unread_session (replies : list (Z * list byte))
  : @wilco_ec_debugfs wilco_ec_scripted :=
  wr_info (raw_write (K := kernel_model) (text "00 f0 38 00 03 00") 0
             (fresh_session ((2, [x31; x32]) :: replies))).

(** The response of the header comment's example. *)
Definition build_date : list byte :=
  [x00; x31; x32; x2f; x32; x31; x2f; x31; x38; x00; x38; x00;
   x01; x00; x2f; x00].

(** A request of the extended type with forty bytes after the command. *)
Definition long_telemetry_text : list ascii :=
  text "00 f6 01" ++ concat (repeat (text " 2a") 40).

(** The words of a sentence, a blank in front of each but the first, with
    the bytes they stand for. *)
Definition spaced (words : list (string * byte))
  : list (list ascii * list ascii * byte) :=
  match words with
  | [] => []
  | (w, b) :: words' =>
      ([], text w, b) :: map (fun wb => (text " ", text (fst wb), snd wb)) words'
  end.

(** Thirty-four words: a type, a command and thirty-one bytes of data. *)
Definition full_request : list (list ascii * list ascii * byte) :=
  spaced ([("00"%string, x00); ("f0"%string, xf0); ("38"%string, x38)]
          ++ repeat ("2a"%string, x2a) 31).

(** The claim that a request of the extended type uses the extended
    capacity: what the parser would yield with room for the two type bytes
    and [EC_MAILBOX_DATA_SIZE_EXTENDED] more is what the mailbox gets when
    the text is written to a file just opened. *)
Definition extended_request_capacity {K : KernelLib} {W : WilcoEc}
  (input : list ascii) (d : wilco_ec_debugfs) : Prop :=
  forall bytes,
    parse_hex_sentence input (EC_MAILBOX_DATA_SIZE_EXTENDED + 2) = Parsed bytes ->
    (3 <= length bytes)%nat ->
    256 * u8_val (nth 0 bytes x00) + u8_val (nth 1 bytes x00)
      = WILCO_EC_MSG_TELEMETRY_LONG ->
    exists msg,
      wr_mailbox (raw_write input 0 d) = [msg] /\
      payload msg = skipn 3 bytes.



(** The claims about the text written, for a session that holds an unread
    response and a write at file position [ppos]. *)

(** A write of a text that the parser rejects returns the parser's error
    and leaves the session as it was. *)
Definition malformed_write_rejected {K : KernelLib} {W : WilcoEc}
  (input : list ascii) (ppos : Z) (d : wilco_ec_debugfs) : Prop :=
  forall e,
    parse_hex_sentence input TYPE_AND_DATA_SIZE = Failed e ->
    wr_ret (raw_write input ppos d) = - e /\
    wr_mailbox (raw_write input ppos d) = [] /\
    same_session (wr_info (raw_write input ppos d)) d.

(** A write of a text that parses to fewer than three bytes returns
    [-EINVAL], calls no mailbox and leaves the session as it was. *)
Definition short_write_rejected {K : KernelLib} {W : WilcoEc}
  (input : list ascii) (ppos : Z) (d : wilco_ec_debugfs) : Prop :=
  forall bytes,
    parse_hex_sentence input TYPE_AND_DATA_SIZE = Parsed bytes ->
    (length bytes < 3)%nat ->
    wr_ret (raw_write input ppos d) = - EINVAL /\
    wr_mailbox (raw_write input ppos d) = [] /\
    same_session (wr_info (raw_write input ppos d)) d.

(** ** Properties of [parse_hex_sentence] *)

Section ParserFacts.

Context {K : KernelLib}.

(** One turn of the outer loop, as a plain equation. *)
Lemma parse_loop_step (osize : Z) (s : list ascii) (out : list byte) :
  parse_loop osize s out =
  if negb (Nat.eqb (length s) 0) && (Z.of_nat (length out) <? osize) then
    match skip_spaces s with
    | [] => Parsed out
    | c :: s1 =>
        let (w, rest) := word_span (c :: s1) in
        if Nat.ltb MAX_WORD_SIZE (length w) then Failed EINVAL
        else match kstrtou8 (c_str w) 16 with
             | None => Failed EINVAL
             | Some b => parse_loop osize rest (out ++ [b])
             end
    end
  else Parsed out.
Proof.
  funelim (parse_loop osize s out).
  all: repeat match goal with
              | H : ?l = true |- context [?l] => rewrite H
              | H : ?l = false |- context [?l] => rewrite H
              | H : skip_spaces _ = _ |- _ => rewrite H
              | H : word_span _ = _ |- _ => rewrite H
              | H : kstrtou8 _ _ = _ |- _ => rewrite H
              end.
  all: reflexivity.
Qed.

Lemma skip_spaces_all (s : list ascii) :
  Forall (fun c => isspace c = true) s -> skip_spaces s = [].
Proof.
  induction 1 as [|c s Hc _ IH]; simpl; [reflexivity|].
  now rewrite Hc.
Qed.

Lemma skip_spaces_head (s : list ascii) (c : ascii) (s1 : list ascii) :
  skip_spaces s = c :: s1 -> isspace c = false.
Proof.
  induction s as [|a s IH]; simpl; [discriminate|].
  destruct (isspace a) eqn:Ea; [exact IH|].
  intros E. injection E as -> _. exact Ea.
Qed.

Lemma skip_spaces_app (s rest : list ascii) :
  skip_spaces s <> [] -> skip_spaces (s ++ rest) = skip_spaces s ++ rest.
Proof.
  induction s as [|a s IH]; simpl; [congruence|].
  destruct (isspace a); [exact IH|reflexivity].
Qed.

Lemma word_span_app (s rest : list ascii) :
  word_break rest = true ->
  word_span (s ++ rest) = (fst (word_span s), snd (word_span s) ++ rest).
Proof.
  intros Hb. induction s as [|a s IH]; simpl.
  - destruct rest as [|c r]; simpl in *; [reflexivity|now rewrite Hb].
  - destruct (isspace a); [reflexivity|].
    rewrite IH. now destruct (word_span s).
Qed.

Lemma word_span_length (s : list ascii) :
  (length (snd (word_span s)) <= length s)%nat.
Proof.
  induction s as [|a s IH]; simpl; [lia|].
  destruct (isspace a); simpl; [lia|].
  destruct (word_span s); simpl in *; lia.
Qed.

Lemma skip_spaces_length (s : list ascii) :
  (length (skip_spaces s) <= length s)%nat.
Proof.
  induction s as [|a s IH]; simpl; [lia|].
  destruct (isspace a); simpl; lia.
Qed.

(** The rest of the input after a word is shorter than the input. *)
Lemma word_rest_shorter (s : list ascii) (c : ascii) (s1 : list ascii) :
  skip_spaces s = c :: s1 ->
  (length (snd (word_span (c :: s1))) < length s)%nat.
Proof.
  intros E. pose proof (skip_spaces_length s) as H1. rewrite E in H1.
  simpl. rewrite (skip_spaces_head _ _ _ E).
  pose proof (word_span_length s1). destruct (word_span s1); simpl in *; lia.
Qed.

(** The loop condition [word_start < isize && n_parsed < osize], split. *)
Ltac loop_cond :=
  match goal with
  | H : negb (Nat.eqb (length ?s) 0) && (Z.of_nat (length ?out) <? ?osize) = true |- _ =>
      let Hs := fresh "Hs" in
      let Hlt := fresh "Hlt" in
      apply andb_prop in H as [Hs Hlt];
      pose proof (proj1 (Z.ltb_lt _ _) Hlt)
  | H : negb (Nat.eqb (length ?s) 0) && (Z.of_nat (length ?out) <? ?osize) = false |- _ =>
      apply andb_false_iff in H
  end.

(** The loop never stores more than [osize] bytes. *)
Lemma parse_loop_bound (osize : Z) (s : list ascii) (out bs : list byte) :
  parse_loop osize s out = Parsed bs ->
  Z.of_nat (length bs) <= Z.max osize (Z.of_nat (length out)).
Proof.
  funelim (parse_loop osize s out); intros E; try discriminate.
  - injection E as <-. lia.
  - injection E as <-. lia.
  - match goal with IH : forall bs, _ -> _ |- _ => specialize (IH _ E) end.
    loop_cond. rewrite length_app in *. simpl in *. lia.
Qed.

(** Once [osize] bytes are stored, what follows in the input is not
    looked at. *)
Lemma parse_loop_app (osize : Z) (s more : list ascii) (out bs : list byte) :
  word_break more = true ->
  parse_loop osize s out = Parsed bs ->
  Z.of_nat (length bs) = osize ->
  parse_loop osize (s ++ more) out = Parsed bs.
Proof.
  intros Hb. funelim (parse_loop osize s out); intros E Hn; try discriminate.
  - injection E as <-. subst osize.
    rewrite parse_loop_step.
    replace (Z.of_nat (length out) <? Z.of_nat (length out)) with false
      by (symmetry; apply Z.ltb_irrefl).
    now rewrite andb_false_r.
  - injection E as <-. loop_cond. lia.
  - rewrite parse_loop_step.
    loop_cond.
    assert (Hs' : negb (Nat.eqb (length (s ++ more)) 0) = true).
    { rewrite length_app. destruct s; simpl in *; [discriminate|reflexivity]. }
    rewrite Hs', Hlt. simpl andb. cbv iota.
    rewrite skip_spaces_app by congruence.
    rewrite Hskip.
    change ((c :: s1) ++ more) with (c :: s1 ++ more). cbv iota.
    change (c :: s1 ++ more) with ((c :: s1) ++ more).
    rewrite word_span_app by exact Hb.
    rewrite Hspan.
    simpl fst. simpl snd. cbv beta iota.
    repeat match goal with
           | H : Nat.ltb _ _ = _ |- _ => rewrite H
           | H : kstrtou8 _ _ = _ |- _ => rewrite H
           end.
    match goal with
    | IH : forall _ _ _ _ _, _ |- _ =>
        eapply IH; [exact Hb | reflexivity | reflexivity | exact E | exact Hn]
    end.
Qed.

(** With no room in [out] nothing is parsed, whatever the input. *)
Lemma parse_hex_sentence_no_room (input : list ascii) (osize : Z) :
  osize <= 0 -> parse_hex_sentence input osize = Parsed [].
Proof.
  intros H. unfold parse_hex_sentence. rewrite parse_loop_step.
  replace (Z.of_nat (length (@nil byte)) <? osize) with false
    by (symmetry; apply Z.ltb_ge; simpl; lia).
  now rewrite andb_false_r.
Qed.

(** A whitespace character in front of the input changes nothing. *)
Lemma parse_loop_skip_space (osize : Z) (c : ascii) (s : list ascii) (out : list byte) :
  isspace c = true ->
  parse_loop osize (c :: s) out = parse_loop osize s out.
Proof.
  intros Hc.
  rewrite (parse_loop_step osize (c :: s)), (parse_loop_step osize s).
  cbn [skip_spaces]. rewrite Hc.
  destruct s as [|a s]; [|reflexivity].
  cbn [length Nat.eqb negb andb skip_spaces].
  now destruct (Z.of_nat (length out) <? osize).
Qed.

(** C8. On a text of whitespace characters only, the empty text included,
    [parse_hex_sentence] returns 0: no byte and no error. *)
Theorem parse_hex_sentence_whitespace (input : list ascii) (osize : Z) :
  Forall (fun c => isspace c = true) input ->
  parse_hex_sentence input osize = Parsed [] /\
  parse_ret (parse_hex_sentence input osize) = 0.
Proof.
  intros Hsp.
  assert (E : parse_hex_sentence input osize = Parsed []).
  { unfold parse_hex_sentence. rewrite parse_loop_step.
    rewrite (skip_spaces_all input Hsp).
    now destruct (negb (Nat.eqb (length input) 0) && (Z.of_nat (length []) <? osize)). }
  rewrite E. split; reflexivity.
Qed.

End ParserFacts.

(** ** Properties of [raw_write] and [raw_read] *)

Section SessionFacts.

Context {K : KernelLib} {W : WilcoEc}.

Lemma firstn_buf_store {A : Type} (data buf : list A) :
  firstn (length data) (buf_store data buf) = data.
Proof.
  unfold buf_store. rewrite firstn_app, Nat.sub_diag, firstn_all.
  simpl. apply app_nil_r.
Qed.

Lemma buf_store_length {A : Type} (data buf : list A) :
  (length data <= length buf)%nat ->
  length (buf_store data buf) = length buf.
Proof.
  intros H. unfold buf_store. rewrite length_app, length_skipn. lia.
Qed.

(** A text written to a file just opened, when the copy from user space
    succeeds and the text fits: all of it is stored at the start of the
    buffer, and [kcount] and the new position are its length. *)
Lemma simple_write_to_buffer_start (to from : list ascii) (available : Z) :
  copy_from_user from = 0 ->
  Z.of_nat (length from) <= available ->
  simple_write_to_buffer to available 0 from
  = (Z.of_nat (length from), buf_store from to, Z.of_nat (length from)).
Proof.
  intros Hcopy Hfit. unfold simple_write_to_buffer.
  change (0 <? 0) with false. cbv iota.
  destruct (Z.eqb_spec (Z.of_nat (length from)) 0) as [E|E].
  - rewrite orb_true_r. destruct from; [reflexivity|discriminate].
  - replace (available <=? 0) with false by (symmetry; apply Z.leb_gt; lia).
    cbn [orb]. rewrite Z.sub_0_r.
    replace (available <? Z.of_nat (length from)) with false
      by (symmetry; apply Z.ltb_ge; lia).
    rewrite Nat2Z.id, firstn_all, Hcopy.
    replace (0 =? Z.of_nat (length from)) with false
      by (symmetry; apply Z.eqb_neq; lia).
    rewrite Z.sub_0_r, Nat2Z.id, firstn_all.
    reflexivity.
Qed.

(** What [parse_hex_sentence] is given then is the text written. *)
Lemma stored_text (text buf : list ascii) :
  firstn (Z.to_nat (Z.of_nat (length text))) (buf_store text buf) = text.
Proof. rewrite Nat2Z.id. apply firstn_buf_store. Qed.

(** With nothing available [simple_read_from_buffer] copies nothing and
    leaves the position where it is. *)
Lemma simple_read_from_buffer_nothing (count ppos : Z) (from : list ascii) :
  simple_read_from_buffer count ppos from 0
  = ((if ppos <? 0 then - EINVAL else 0), [], ppos).
Proof.
  unfold simple_read_from_buffer.
  destruct (Z.ltb_spec ppos 0) as [H|H]; [reflexivity|].
  replace (0 <=? ppos) with true by (symmetry; apply Z.leb_le; exact H).
  reflexivity.
Qed.

(** A read from the start of a file with room for all that is available,
    when the copy to user space succeeds. *)
Lemma simple_read_from_buffer_whole (count available : Z) (from : list ascii) :
  0 <= available <= count ->
  copy_to_user (firstn (Z.to_nat available) from) = 0 ->
  simple_read_from_buffer count 0 from available
  = (available, firstn (Z.to_nat available) from, available).
Proof.
  intros [H0 Hfit] Hcopy. unfold simple_read_from_buffer.
  change (0 <? 0) with false. cbv iota.
  destruct (Z.eqb_spec available 0) as [->|Hne].
  { change (0 <=? 0) with true. reflexivity. }
  replace (available <=? 0) with false by (symmetry; apply Z.leb_gt; lia).
  replace (count =? 0) with false by (symmetry; apply Z.eqb_neq; lia).
  cbn [orb skipn Z.to_nat]. rewrite Z.sub_0_r.
  destruct (Z.ltb_spec available count) as [Hlt|Hge].
  - rewrite Hcopy.
    replace (0 =? available) with false by (symmetry; apply Z.eqb_neq; lia).
    rewrite Z.sub_0_r, firstn_firstn, Nat.min_id. reflexivity.
  - assert (count = available) as -> by lia.
    rewrite Hcopy.
    replace (0 =? available) with false by (symmetry; apply Z.eqb_neq; lia).
    rewrite Z.sub_0_r, firstn_firstn, Nat.min_id. reflexivity.
Qed.

(** [simple_read_from_buffer] looks at the first [available] characters of
    the buffer only. *)
Lemma simple_read_from_buffer_available
  (count ppos available : Z) (from : list ascii) :
  simple_read_from_buffer count ppos from available
  = simple_read_from_buffer count ppos
      (firstn (Z.to_nat available) from) available.
Proof.
  unfold simple_read_from_buffer.
  destruct (Z.ltb_spec ppos 0) as [Hneg|Hpos]; [reflexivity|].
  destruct (Z.leb_spec available ppos) as [Hle|Hgt]; [reflexivity|].
  cbn [orb]. destruct (count =? 0) eqn:Ec; [reflexivity|].
  apply Z.eqb_neq in Ec.
  set (n := if available - ppos <? count then available - ppos else count).
  assert (Hn : n <= available - ppos)
    by (subst n; destruct (Z.ltb_spec (available - ppos) count); lia).
  assert (E : firstn (Z.to_nat n) (skipn (Z.to_nat ppos) from)
              = firstn (Z.to_nat n)
                  (skipn (Z.to_nat ppos) (firstn (Z.to_nat available) from))).
  { rewrite skipn_firstn_comm, firstn_firstn.
    f_equal. lia. }
  rewrite <- E. reflexivity.
Qed.

(** What [raw_read] returns, from the response alone when nothing is
    waiting to be read. *)
Lemma raw_read_idle (count ppos : Z) (d : wilco_ec_debugfs) :
  response_size d = 0 ->
  raw_read count ppos d
  = {| rd_ret := if ppos <? 0 then - EINVAL else 0;
       rd_text := []; rd_info := d; rd_ppos := ppos |}.
Proof.
  intros Hidle. unfold raw_read, format_response. rewrite Hidle.
  change (0 =? 0) with true. cbv iota.
  rewrite simple_read_from_buffer_nothing. reflexivity.
Qed.

(** What [raw_read] returns when a response is waiting. *)
Lemma raw_read_response (count ppos : Z) (d : wilco_ec_debugfs)
  (fmt_len : Z) (line : list ascii) :
  response_size d <> 0 ->
  hex_dump_to_buffer (raw_data d) (response_size d) 16 1
                     FORMATTED_BUFFER_SIZE true = (fmt_len, line) ->
  raw_read count ppos d =
  let fd := buf_store line (formatted_data d) in
  let '(ret, copied, ppos') := simple_read_from_buffer count ppos fd fmt_len in
  {| rd_ret := ret; rd_text := copied;
     rd_info := {| ec := ec d; response_size := 0; raw_data := raw_data d;
                   formatted_data := fd |};
     rd_ppos := ppos' |}.
Proof.
  intros Hresp Hdump. unfold raw_read, format_response.
  destruct (Z.eqb_spec (response_size d) 0) as [E|_]; [contradiction|].
  rewrite Hdump. reflexivity.
Qed.

(** The session after a read: idle, with the device and [raw_data] as they
    were. *)
Lemma raw_read_info (count ppos : Z) (d : wilco_ec_debugfs) :
  let d1 := rd_info (raw_read count ppos d) in
  response_size d1 = 0 /\ ec d1 = ec d /\ raw_data d1 = raw_data d.
Proof.
  unfold raw_read, format_response.
  destruct (response_size d =? 0) eqn:E.
  - apply Z.eqb_eq in E.
    destruct (simple_read_from_buffer _ _ _ _) as [[ret copied] p].
    cbn. auto.
  - destruct (hex_dump_to_buffer _ _ _ _ _ _) as [fmt_len line].
    destruct (simple_read_from_buffer _ _ _ _) as [[ret copied] p].
    cbn. auto.
Qed.

(** What [raw_read] copies out depends on the response alone, not on the
    text buffer, when the line of the dump is as long as the helper says. *)
Lemma raw_read_same_response (count ppos : Z) (d1 d2 : wilco_ec_debugfs) :
  response_size d1 = response_size d2 ->
  raw_data d1 = raw_data d2 ->
  (let dump := hex_dump_to_buffer (raw_data d2) (response_size d2) 16 1
                 FORMATTED_BUFFER_SIZE true in
   fst dump <= Z.of_nat (length (snd dump))) ->
  rd_ret (raw_read count ppos d1) = rd_ret (raw_read count ppos d2) /\
  rd_text (raw_read count ppos d1) = rd_text (raw_read count ppos d2) /\
  rd_ppos (raw_read count ppos d1) = rd_ppos (raw_read count ppos d2).
Proof.
  intros Hsz Hraw Hfit.
  destruct (Z.eq_dec (response_size d2) 0) as [E|E].
  - rewrite !raw_read_idle by congruence. cbn. auto.
  - destruct (hex_dump_to_buffer (raw_data d2) (response_size d2) 16 1
                FORMATTED_BUFFER_SIZE true) as [fmt_len line] eqn:Hd.
    cbn [fst snd] in Hfit.
    rewrite (raw_read_response count ppos d1 fmt_len line)
      by (rewrite ?Hsz, ?Hraw; assumption).
    rewrite (raw_read_response count ppos d2 fmt_len line) by assumption.
    cbv zeta.
    rewrite (simple_read_from_buffer_available _ _ _ (buf_store line (formatted_data d1))).
    rewrite (simple_read_from_buffer_available _ _ _ (buf_store line (formatted_data d2))).
    assert (Hhead : forall fd : list ascii,
               firstn (Z.to_nat fmt_len) (buf_store line fd)
               = firstn (Z.to_nat fmt_len) line).
    { intros fd. unfold buf_store. rewrite firstn_app.
      replace (Z.to_nat fmt_len - length line)%nat with 0%nat by lia.
      cbn [firstn]. apply app_nil_r. }
    rewrite !Hhead.
    destruct (simple_read_from_buffer _ _ _ _) as [[ret copied] p].
    cbn. auto.
Qed.

(** The only error code of [parse_hex_sentence] is [-EINVAL]. *)
Lemma parse_loop_failed (osize : Z) (s : list ascii) (out : list byte) (e : Z) :
  parse_loop osize s out = Failed e -> e = EINVAL.
Proof.
  funelim (parse_loop osize s out); intros E; try discriminate;
    try (injection E as <-; reflexivity).
  eauto.
Qed.

(** [raw_write] past its four checks: the buffer is cleared, the message
    built and handed to the mailbox. *)
Lemma raw_write_sends (text : list ascii) (ppos : Z) (d : wilco_ec_debugfs)
  (kcount : Z) (buf : list ascii) (ppos' : Z) (request_data : list byte) :
  Z.of_nat (length text) <= FORMATTED_BUFFER_SIZE ->
  simple_write_to_buffer (formatted_data d) FORMATTED_BUFFER_SIZE ppos text
    = (kcount, buf, ppos') ->
  0 <= kcount ->
  parse_hex_sentence (firstn (Z.to_nat kcount) buf) TYPE_AND_DATA_SIZE
    = Parsed request_data ->
  3 <= Z.of_nat (length request_data) ->
  raw_write text ppos d =
  let msg := build_msg request_data in
  let '(ret, response, ec') :=
    wilco_ec_mailbox (ec d) msg
      (repeat x00 (Z.to_nat EC_MAILBOX_DATA_SIZE_EXTENDED)) in
  if ret <? 0 then
    {| wr_ret := ret;
       wr_info := {| ec := ec'; response_size := response_size d;
                     raw_data := response; formatted_data := buf |};
       wr_mailbox := [msg]; wr_ppos := ppos' |}
  else
    {| wr_ret := Z.of_nat (length text);
       wr_info := {| ec := ec'; response_size := ret;
                     raw_data := response; formatted_data := buf |};
       wr_mailbox := [msg]; wr_ppos := ppos' |}.
Proof.
  intros Hcount Hcopy Hk Hparse Hlen. unfold raw_write.
  replace (FORMATTED_BUFFER_SIZE <? Z.of_nat (length text)) with false
    by (symmetry; apply Z.ltb_ge; exact Hcount).
  rewrite Hcopy.
  replace (kcount <? 0) with false by (symmetry; apply Z.ltb_ge; exact Hk).
  rewrite Hparse.
  replace (Z.of_nat (length request_data) <? 3) with false
    by (symmetry; apply Z.ltb_ge; exact Hlen).
  reflexivity.
Qed.

(** A write that returns early calls no mailbox and leaves everything but
    the text buffer as it was. *)
Lemma raw_write_rejected (text : list ascii) (ppos : Z) (d : wilco_ec_debugfs) :
  returns_early text ppos d ->
  let r := raw_write text ppos d in
  wr_mailbox r = [] /\
  same_session (wr_info r) d /\
  (wr_ret r = - EINVAL \/
   wr_ret r < 0 /\
   wr_ret r = fst (fst (simple_write_to_buffer (formatted_data d)
                          FORMATTED_BUFFER_SIZE ppos text))).
Proof.
  unfold returns_early, raw_write, same_session.
  destruct (Z.ltb_spec FORMATTED_BUFFER_SIZE (Z.of_nat (length text))) as [Hc|Hc];
    [cbn; auto|].
  intros [Hlong|Hrej]; [lia|].
  destruct (simple_write_to_buffer _ _ _ _) as [[kcount buf] ppos'].
  destruct (Z.ltb_spec kcount 0) as [Hk|Hk]; [cbn; auto 6|].
  destruct Hrej as [Hneg|Hrej]; [lia|].
  destruct (parse_hex_sentence _ _) as [rd|e] eqn:Hp.
  - replace (Z.of_nat (length rd) <? 3) with true
      by (symmetry; apply Z.ltb_lt; exact Hrej).
    cbn; auto.
  - unfold parse_hex_sentence in Hp. apply parse_loop_failed in Hp. subst e.
    cbn; auto.
Qed.

(** The mailbox is called at most once, with the message built from the
    bytes parsed from the start of the text buffer. *)
Lemma raw_write_mailbox_cases (text : list ascii) (ppos : Z)
  (d : wilco_ec_debugfs) :
  returns_early text ppos d /\ wr_mailbox (raw_write text ppos d) = [] \/
  exists kcount buf ppos' request_data,
    Z.of_nat (length text) <= FORMATTED_BUFFER_SIZE /\
    simple_write_to_buffer (formatted_data d) FORMATTED_BUFFER_SIZE ppos text
      = (kcount, buf, ppos') /\
    0 <= kcount /\
    parse_hex_sentence (firstn (Z.to_nat kcount) buf) TYPE_AND_DATA_SIZE
      = Parsed request_data /\
    3 <= Z.of_nat (length request_data) /\
    wr_mailbox (raw_write text ppos d) = [build_msg request_data].
Proof.
  assert (Hearly : returns_early text ppos d ->
                   returns_early text ppos d /\
                   wr_mailbox (raw_write text ppos d) = [])
    by (intros H; split; [exact H|apply (raw_write_rejected text ppos d H)]).
  destruct (Z.leb_spec (Z.of_nat (length text)) FORMATTED_BUFFER_SIZE) as [Hc|Hc];
    [|left; apply Hearly; left; exact Hc].
  destruct (simple_write_to_buffer (formatted_data d) FORMATTED_BUFFER_SIZE
              ppos text) as [[kcount buf] ppos'] eqn:Hcopy.
  destruct (Z.ltb_spec kcount 0) as [Hk|Hk].
  { left. apply Hearly. right. rewrite Hcopy. left. exact Hk. }
  destruct (parse_hex_sentence (firstn (Z.to_nat kcount) buf) TYPE_AND_DATA_SIZE)
    as [rd|e] eqn:Hp.
  - destruct (Z.ltb_spec (Z.of_nat (length rd)) 3) as [Hl|Hl].
    + left. apply Hearly. right. rewrite Hcopy, Hp. right. exact Hl.
    + right. exists kcount, buf, ppos', rd. repeat split; try assumption.
      rewrite (raw_write_sends text ppos d kcount buf ppos' rd Hc Hcopy Hk Hp Hl).
      cbv zeta.
      destruct (wilco_ec_mailbox _ _ _) as [[ret resp] ec'].
      now destruct (ret <? 0).
  - left. apply Hearly. right. rewrite Hcopy, Hp. right. exact I.
Qed.

(** A text that the parser rejects, or that parses to fewer than three
    bytes, written to a file just opened: the write returns [-EINVAL],
    calls no mailbox and leaves the session as it was. *)
Lemma raw_write_rejected_at_start (text : list ascii) (d : wilco_ec_debugfs) :
  copy_from_user text = 0 ->
  match parse_hex_sentence text TYPE_AND_DATA_SIZE with
  | Failed _ => True
  | Parsed request_data => Z.of_nat (length request_data) < 3
  end ->
  let r := raw_write text 0 d in
  wr_ret r = - EINVAL /\ wr_mailbox r = [] /\ same_session (wr_info r) d.
Proof.
  intros Hcopy Hrej r.
  assert (Hearly : returns_early text 0 d).
  { unfold returns_early.
    destruct (Z.ltb_spec FORMATTED_BUFFER_SIZE (Z.of_nat (length text))) as [Hc|Hc];
      [left; exact Hc|right].
    rewrite (simple_write_to_buffer_start _ _ _ Hcopy Hc), stored_text.
    right. exact Hrej. }
  destruct (raw_write_rejected text 0 d Hearly) as (Hm & Hs & Hret).
  fold r in Hm, Hs, Hret. repeat split; try assumption; try apply Hs.
  destruct Hret as [E|[Hneg E]]; [exact E|].
  subst r. unfold raw_write in *.
  destruct (Z.ltb_spec FORMATTED_BUFFER_SIZE (Z.of_nat (length text))) as [Hc|Hc];
    [reflexivity|].
  rewrite (simple_write_to_buffer_start _ _ _ Hcopy Hc) in *.
  cbn [fst] in E. lia.
Qed.

(** Two bytes, the first shifted left by eight and or-ed with the second,
    are the big-endian number they spell. *)
Lemma be16_value (hi lo : byte) :
  Z.lor (Z.shiftl (u8_val hi) 8) (u8_val lo) = 256 * u8_val hi + u8_val lo.
Proof.
  unfold u8_val.
  pose proof (Byte.to_N_bounded hi) as Hhi.
  pose proof (Byte.to_N_bounded lo) as Hlo.
  set (a := Z.of_N (Byte.to_N hi)) in *.
  set (b := Z.of_N (Byte.to_N lo)) in *.
  assert (Ha : 0 <= a) by (subst a; lia).
  assert (Hb : 0 <= b < 2 ^ 8) by (subst b; change (2 ^ 8) with 256; lia).
  pose proof (Z.add_lor_land (Z.shiftl a 8) b) as Hadd.
  assert (Hland : Z.land (Z.shiftl a 8) b = 0).
  { apply Z.bits_inj'. intros n Hn.
    rewrite Z.land_spec, Z.bits_0.
    destruct (Z.ltb_spec n 8) as [Hlt|Hge].
    - rewrite Z.shiftl_spec_low by exact Hlt. reflexivity.
    - rewrite (Z.bits_above_log2 b n); [apply andb_false_r|lia|].
      destruct (Z.eq_dec b 0) as [->|Hnz]; [simpl; lia|].
      apply Z.lt_le_trans with 8; [|exact Hge].
      apply Z.log2_lt_pow2; lia. }
  rewrite Hland, Z.add_0_r in Hadd. rewrite Hadd.
  rewrite Z.shiftl_mul_pow2 by lia.
  change (2 ^ 8) with 256. lia.
Qed.

(** The parser hands [raw_write] at most [TYPE_AND_DATA_SIZE] bytes. *)
Lemma parse_hex_sentence_bound (text : list ascii) (osize : Z) (bs : list byte) :
  parse_hex_sentence text osize = Parsed bs ->
  Z.of_nat (length bs) <= Z.max osize 0.
Proof. intros H. apply parse_loop_bound in H. exact H. Qed.

(** C9. Every message [raw_write] hands to the mailbox, at whatever file
    position the text is written, has the bits of [WILCO_EC_FLAG_RAW] set,
    and has [WILCO_EC_FLAG_EXTENDED_DATA] set exactly when its type is
    [WILCO_EC_MSG_TELEMETRY_LONG] (the two flags being different bits). *)
Theorem raw_write_flags
  (text : list ascii) (ppos : Z) (d : wilco_ec_debugfs)
  (msg : wilco_ec_message) :
  Z.land WILCO_EC_FLAG_RAW WILCO_EC_FLAG_EXTENDED_DATA = 0 ->
  WILCO_EC_FLAG_EXTENDED_DATA <> 0 ->
  In msg (wr_mailbox (raw_write text ppos d)) ->
  Z.land (Msg.flags msg) WILCO_EC_FLAG_RAW = WILCO_EC_FLAG_RAW /\
  (Z.land (Msg.flags msg) WILCO_EC_FLAG_EXTENDED_DATA
     = WILCO_EC_FLAG_EXTENDED_DATA
   <-> Msg.type msg = WILCO_EC_MSG_TELEMETRY_LONG).
Proof.
  intros Hdisj Hnz Hin.
  destruct (raw_write_mailbox_cases text ppos d)
    as [[_ E]|(kcount & buf & ppos' & rd & _ & _ & _ & _ & _ & E)];
    rewrite E in Hin; simpl in Hin; [contradiction|].
  destruct Hin as [<-|[]]. unfold build_msg. cbn [Msg.flags Msg.type].
  destruct (Z.eqb_spec
              (Z.lor (Z.shiftl (u8_val (nth 0 rd x00)) 8) (u8_val (nth 1 rd x00)))
              WILCO_EC_MSG_TELEMETRY_LONG) as [Ht|Ht].
  - split.
    + rewrite Z.land_lor_distr_l, Z.land_diag, (Z.land_comm WILCO_EC_FLAG_EXTENDED_DATA), Hdisj.
      apply Z.lor_0_r.
    + split; [intros _; exact Ht|intros _].
      rewrite Z.land_lor_distr_l, Z.land_diag, Hdisj. apply Z.lor_0_l.
  - split; [apply Z.land_diag|].
    rewrite Hdisj. split; [congruence|contradiction].
Qed.

(** C10. When the text is accepted, at least three bytes are parsed and the
    mailbox returns a non-negative value, [raw_write] returns [count], the
    length of the whole text, whatever part of it was stored and whatever
    part the parser used; the mailbox's return value becomes
    [response_size].  A text written to a file just opened is stored whole,
    and is what the parser is given. *)
Theorem raw_write_returns_count
  (text : list ascii) (ppos : Z) (d : wilco_ec_debugfs)
  (kcount : Z) (buf : list ascii) (ppos' : Z) (request_data : list byte)
  (ret : Z) (response : list byte) (ec' : wilco_ec_device) :
  Z.of_nat (length text) <= FORMATTED_BUFFER_SIZE ->
  simple_write_to_buffer (formatted_data d) FORMATTED_BUFFER_SIZE ppos text
    = (kcount, buf, ppos') ->
  0 <= kcount ->
  parse_hex_sentence (firstn (Z.to_nat kcount) buf) TYPE_AND_DATA_SIZE
    = Parsed request_data ->
  (3 <= length request_data)%nat ->
  wilco_ec_mailbox (ec d) (build_msg request_data)
    (repeat x00 (Z.to_nat EC_MAILBOX_DATA_SIZE_EXTENDED)) = (ret, response, ec') ->
  0 <= ret ->
  let r := raw_write text ppos d in
  wr_ret r = Z.of_nat (length text) /\
  response_size (wr_info r) = ret /\
  raw_data (wr_info r) = response /\
  wr_ppos r = ppos' /\
  (ppos = 0 -> copy_from_user text = 0 ->
   kcount = Z.of_nat (length text) /\
   firstn (Z.to_nat kcount) buf = text /\
   parse_hex_sentence text TYPE_AND_DATA_SIZE = Parsed request_data).
Proof.
  intros Hc Hcopy Hk Hp Hl Hm Hret r. subst r.
  rewrite (raw_write_sends text ppos d kcount buf ppos' request_data Hc Hcopy Hk Hp)
    by lia.
  cbv zeta. rewrite Hm.
  replace (ret <? 0) with false by (symmetry; apply Z.ltb_ge; exact Hret).
  cbn [wr_ret wr_info wr_ppos response_size raw_data].
  do 4 (split; [reflexivity|]).
  intros -> Huser.
  rewrite (simple_write_to_buffer_start _ _ _ Huser Hc) in Hcopy.
  injection Hcopy as <- <- <-. rewrite stored_text in Hp.
  split; [reflexivity|]. split; [apply stored_text|exact Hp].
Qed.

(** When the mailbox fails, [raw_write] returns its error code; the response
    buffer has been cleared and handed to the mailbox, and [response_size]
    is the one from before the write. *)
Lemma raw_write_transport_error
  (text : list ascii) (ppos : Z) (d : wilco_ec_debugfs)
  (kcount : Z) (buf : list ascii) (ppos' : Z) (request_data : list byte)
  (ret : Z) (response : list byte) (ec' : wilco_ec_device) :
  Z.of_nat (length text) <= FORMATTED_BUFFER_SIZE ->
  simple_write_to_buffer (formatted_data d) FORMATTED_BUFFER_SIZE ppos text
    = (kcount, buf, ppos') ->
  0 <= kcount ->
  parse_hex_sentence (firstn (Z.to_nat kcount) buf) TYPE_AND_DATA_SIZE
    = Parsed request_data ->
  (3 <= length request_data)%nat ->
  wilco_ec_mailbox (ec d) (build_msg request_data)
    (repeat x00 (Z.to_nat EC_MAILBOX_DATA_SIZE_EXTENDED)) = (ret, response, ec') ->
  ret < 0 ->
  let r := raw_write text ppos d in
  wr_ret r = ret /\
  response_size (wr_info r) = response_size d /\
  raw_data (wr_info r) = response.
Proof.
  intros Hc Hcopy Hk Hp Hl Hm Hret r. subst r.
  rewrite (raw_write_sends text ppos d kcount buf ppos' request_data Hc Hcopy Hk Hp)
    by lia.
  cbv zeta. rewrite Hm.
  replace (ret <? 0) with true by (symmetry; apply Z.ltb_lt; exact Hret).
  simpl. auto.
Qed.

(** Started without an unread response, a write that fails in the mailbox
    leaves none, and the next read copies out nothing. *)
Lemma raw_write_transport_error_idle
  (text : list ascii) (ppos : Z) (d : wilco_ec_debugfs)
  (kcount : Z) (buf : list ascii) (ppos' : Z) (request_data : list byte)
  (ret : Z) (response : list byte) (ec' : wilco_ec_device) (count rpos : Z) :
  response_size d = 0 ->
  Z.of_nat (length text) <= FORMATTED_BUFFER_SIZE ->
  simple_write_to_buffer (formatted_data d) FORMATTED_BUFFER_SIZE ppos text
    = (kcount, buf, ppos') ->
  0 <= kcount ->
  parse_hex_sentence (firstn (Z.to_nat kcount) buf) TYPE_AND_DATA_SIZE
    = Parsed request_data ->
  (3 <= length request_data)%nat ->
  wilco_ec_mailbox (ec d) (build_msg request_data)
    (repeat x00 (Z.to_nat EC_MAILBOX_DATA_SIZE_EXTENDED)) = (ret, response, ec') ->
  ret < 0 ->
  let r := raw_write text ppos d in
  wr_ret r = ret /\
  state_of (wr_info r) = Idle /\
  rd_text (raw_read count rpos (wr_info r)) = [].
Proof.
  intros Hidle Hc Hcopy Hk Hp Hl Hm Hret r.
  destruct (raw_write_transport_error text ppos d kcount buf ppos' request_data
              ret response ec' Hc Hcopy Hk Hp Hl Hm Hret) as (H1 & H2 & _).
  fold r in H1, H2. split; [exact H1|]. split.
  - unfold state_of. rewrite H2, Hidle. reflexivity.
  - rewrite raw_read_idle by congruence. reflexivity.
Qed.

(** C5, as the driver has it. The message handed to the mailbox has as type
    the first two parsed bytes read big-endian, as command the third, as
    payload the bytes after it; its response capacity and its extended flag
    are functions of the type alone (extended for
    [WILCO_EC_MSG_TELEMETRY_LONG], default otherwise), while type, command
    and payload together never exceed [TYPE_AND_DATA_SIZE], whatever the
    type.  The parsed bytes are those the parser finds at the start of the
    text buffer, which are those of the text when it is written to a file
    just opened. *)
Theorem raw_write_request_framing
  (text : list ascii) (ppos : Z) (d : wilco_ec_debugfs)
  (kcount : Z) (buf : list ascii) (ppos' : Z) (request_data : list byte) :
  Z.of_nat (length text) <= FORMATTED_BUFFER_SIZE ->
  simple_write_to_buffer (formatted_data d) FORMATTED_BUFFER_SIZE ppos text
    = (kcount, buf, ppos') ->
  0 <= kcount ->
  parse_hex_sentence (firstn (Z.to_nat kcount) buf) TYPE_AND_DATA_SIZE
    = Parsed request_data ->
  (3 <= length request_data)%nat ->
  (ppos = 0 -> copy_from_user text = 0 ->
   parse_hex_sentence text TYPE_AND_DATA_SIZE = Parsed request_data) /\
  exists msg,
    wr_mailbox (raw_write text ppos d) = [msg] /\
    Msg.type msg =
      256 * u8_val (nth 0 request_data x00) + u8_val (nth 1 request_data x00) /\
    Msg.command msg = nth 2 request_data x00 /\
    payload msg = skipn 3 request_data /\
    Msg.request_size msg = Z.of_nat (length (payload msg)) /\
    Msg.response_size msg =
      (if Msg.type msg =? WILCO_EC_MSG_TELEMETRY_LONG
       then EC_MAILBOX_DATA_SIZE_EXTENDED else EC_MAILBOX_DATA_SIZE) /\
    Msg.flags msg =
      (if Msg.type msg =? WILCO_EC_MSG_TELEMETRY_LONG
       then Z.lor WILCO_EC_FLAG_RAW WILCO_EC_FLAG_EXTENDED_DATA
       else WILCO_EC_FLAG_RAW) /\
    2 + 1 + Msg.request_size msg <= EC_MAILBOX_DATA_SIZE + 2.
Proof.
  intros Hc Hcopy Hk Hp Hl.
  split.
  { intros -> Huser.
    rewrite (simple_write_to_buffer_start _ _ _ Huser Hc) in Hcopy.
    injection Hcopy as <- <- <-. now rewrite stored_text in Hp. }
  exists (build_msg request_data).
  split.
  { rewrite (raw_write_sends text ppos d kcount buf ppos' request_data Hc Hcopy Hk Hp)
      by lia.
    cbv zeta. destruct (wilco_ec_mailbox _ _ _) as [[ret resp] ec'].
    now destruct (ret <? 0). }
  pose proof (parse_hex_sentence_bound _ _ _ Hp) as Hb.
  unfold TYPE_AND_DATA_SIZE in Hb.
  unfold payload, build_msg.
  cbn [Msg.type Msg.flags Msg.command Msg.request_data Msg.request_size
       Msg.response_size].
  rewrite be16_value.
  repeat split; try reflexivity.
  - destruct (Z.ltb_spec 3 (Z.of_nat (length request_data))) as [H|H];
      [reflexivity|].
    assert (Hn : length request_data = 3%nat) by lia.
    symmetry. apply length_zero_iff_nil. rewrite length_skipn. lia.
  - destruct (Z.ltb_spec 3 (Z.of_nat (length request_data))) as [H|H].
    + rewrite length_skipn. lia.
    + simpl. lia.
  - lia.
Qed.

End SessionFacts.

(** ** Properties of the dump that [raw_read] produces *)

Section FormatFacts.

Context {W : WilcoEc}.








End FormatFacts.

(** ** Calls that overlap *)

Section OverlapFacts.

Context {K : KernelLib} {W : WilcoEc}.

(** The writer's four steps, taken in a row, are [raw_write]. *)
Lemma writer_alone (text : list ascii) (ppos : Z) (pc : read_pc)
  (d : wilco_ec_debugfs) :
  run (repeat Writer 4) {| writer := W_entry text ppos; reader := pc; info := d |}
  = {| writer := W_return (wr_ret (raw_write text ppos d));
       reader := pc;
       info := wr_info (raw_write text ppos d) |}.
Proof.
  unfold run, raw_write.
  cbn [repeat fold_left overlap_step writer reader info write_step].
  destruct (FORMATTED_BUFFER_SIZE <? Z.of_nat (length text)); [reflexivity|].
  destruct (simple_write_to_buffer _ _ _ _) as [[kcount buf] ppos'].
  destruct (kcount <? 0); [reflexivity|].
  destruct (parse_hex_sentence _ _) as [rd|e]; [|reflexivity].
  destruct (Z.of_nat (length rd) <? 3); [reflexivity|].
  cbn [writer reader info write_step ec raw_data response_size formatted_data].
  destruct (wilco_ec_mailbox _ _ _) as [[ret resp] ec'].
  cbn [writer reader info write_step ec raw_data response_size formatted_data].
  destruct (ret <? 0); reflexivity.
Qed.

(** The reader's three steps, taken in a row, are [raw_read]. *)
Lemma reader_alone (count ppos : Z) (pc : write_pc) (d : wilco_ec_debugfs) :
  run (repeat Reader 3) {| writer := pc; reader := R_entry count ppos; info := d |}
  = {| writer := pc;
       reader := R_return (rd_ret (raw_read count ppos d))
                          (rd_text (raw_read count ppos d));
       info := rd_info (raw_read count ppos d) |}.
Proof.
  unfold run, raw_read, format_response.
  cbn [repeat fold_left overlap_step writer reader info read_step].
  destruct (response_size d =? 0).
  - cbn [writer reader info read_step].
    destruct (simple_read_from_buffer _ _ _ _) as [[ret copied] p].
    reflexivity.
  - destruct (hex_dump_to_buffer _ _ _ _ _ _) as [fmt_len line].
    cbn [writer reader info read_step formatted_data].
    destruct (simple_read_from_buffer _ _ _ _) as [[ret copied] p].
    reflexivity.
Qed.

Lemma run_app (s1 s2 : list caller) (c : overlap) :
  run (s1 ++ s2) c = run s2 (run s1 c).
Proof. apply fold_left_app. Qed.

(** C2, as the driver has it. Calls that do not overlap are atomic: when
    all steps of one call come before the first step of the other, the
    reader gets the text of a read after the write, or of a read before it.
    Nothing keeps the calls apart, though: a reader that moves between the
    writer's [memset] and its mailbox call gets what a read copies out of
    the session with [raw_data] cleared and [response_size] still that of
    the response from before the write, which is the dump of the cleared
    buffer in that length. *)
Theorem overlapping_calls
  (text : list ascii) (wpos count rpos : Z) (d : wilco_ec_debugfs)
  (kcount : Z) (buf : list ascii) (wpos' : Z) (request_data : list byte) :
  Z.of_nat (length text) <= FORMATTED_BUFFER_SIZE ->
  simple_write_to_buffer (formatted_data d) FORMATTED_BUFFER_SIZE wpos text
    = (kcount, buf, wpos') ->
  0 <= kcount ->
  parse_hex_sentence (firstn (Z.to_nat kcount) buf) TYPE_AND_DATA_SIZE
    = Parsed request_data ->
  (3 <= length request_data)%nat ->
  response_size d <> 0 ->
  returned (run (repeat Writer 4 ++ repeat Reader 3)
                (overlap_start text wpos count rpos d))
    = Some (wr_ret (raw_write text wpos d),
            rd_text (raw_read count rpos (wr_info (raw_write text wpos d)))) /\
  returned (run (repeat Reader 3 ++ repeat Writer 4)
                (overlap_start text wpos count rpos d))
    = Some (wr_ret (raw_write text wpos (rd_info (raw_read count rpos d))),
            rd_text (raw_read count rpos d)) /\
  let cleared :=
    {| ec := ec d; response_size := response_size d;
       raw_data := repeat x00 (Z.to_nat EC_MAILBOX_DATA_SIZE_EXTENDED);
       formatted_data := buf |} in
  (exists ret,
     returned (run [Writer; Writer; Reader; Reader; Reader; Writer; Writer]
                   (overlap_start text wpos count rpos d))
     = Some (ret, rd_text (raw_read count rpos cleared))) /\
  (forall fmt_len line,
     hex_dump_to_buffer
       (repeat x00 (Z.to_nat EC_MAILBOX_DATA_SIZE_EXTENDED))
       (response_size d) 16 1 FORMATTED_BUFFER_SIZE true = (fmt_len, line) ->
     rd_text (raw_read count rpos cleared)
     = snd (fst (simple_read_from_buffer count rpos (buf_store line buf)
                                         fmt_len))).
Proof.
  intros Hc Hcopy Hk Hp Hl Hresp. split; [|split].
  - unfold overlap_start. rewrite run_app, writer_alone, reader_alone.
    reflexivity.
  - unfold overlap_start. rewrite run_app, reader_alone, writer_alone.
    reflexivity.
  - cbv zeta. split.
    + unfold run, overlap_start, raw_read, format_response.
      cbn [fold_left overlap_step writer reader info write_step].
      replace (FORMATTED_BUFFER_SIZE <? Z.of_nat (length text)) with false
        by (symmetry; apply Z.ltb_ge; exact Hc).
      rewrite Hcopy.
      replace (kcount <? 0) with false by (symmetry; apply Z.ltb_ge; exact Hk).
      rewrite Hp.
      replace (Z.of_nat (length request_data) <? 3) with false
        by (symmetry; apply Z.ltb_ge; lia).
      cbn [writer reader info write_step read_step
           ec raw_data response_size formatted_data].
      destruct (Z.eqb_spec (response_size d) 0) as [E|_]; [contradiction|].
      destruct (hex_dump_to_buffer _ _ _ _ _ _) as [fmt_len line].
      cbn [writer reader info write_step read_step
           ec raw_data response_size formatted_data].
      destruct (simple_read_from_buffer _ _ _ _) as [[ret copied] p].
      cbn [writer reader info write_step read_step
           ec raw_data response_size formatted_data].
      destruct (wilco_ec_mailbox _ _ _) as [[mret resp] ec'].
      cbn [writer reader info write_step read_step
           ec raw_data response_size formatted_data].
      destruct (mret <? 0); eexists; reflexivity.
    + intros fmt_len line Hdump.
      rewrite (raw_read_response count rpos _ fmt_len line);
        [|exact Hresp|exact Hdump].
      cbv zeta. cbn [formatted_data].
      destruct (simple_read_from_buffer _ _ _ _) as [[ret copied] p].
      reflexivity.
Qed.

End OverlapFacts.

(** ** The parser, word by word *)

Section SentenceFacts.

Context {K : KernelLib}.

(** The loop condition among the hypotheses, split in its two parts. *)
Ltac loop_guard :=
  match goal with
  | H : negb (Nat.eqb (length _) 0) && (Z.of_nat (length _) <? _) = true |- _ =>
      let Hs := fresh "Hs" in
      let Hlt := fresh "Hlt" in
      apply andb_prop in H as [Hs Hlt]
  | H : negb (Nat.eqb (length _) 0) && (Z.of_nat (length _) <? _) = false |- _ =>
      apply andb_false_iff in H
  end.

(** The bytes stored before a turn of the loop stay where they are. *)
Lemma parse_loop_prefix (osize : Z) (s : list ascii) (out bs : list byte) :
  parse_loop osize s out = Parsed bs -> exists more, bs = out ++ more.
Proof.
  funelim (parse_loop osize s out); intros E; try discriminate.
  - injection E as <-. exists []. now rewrite app_nil_r.
  - injection E as <-. exists []. now rewrite app_nil_r.
  - match goal with IH : forall bs, _ -> _ |- _ => destruct (IH _ E) as [more ->] end.
    exists (b :: more). now rewrite <- app_assoc.
Qed.

Lemma skip_spaces_nil (s : list ascii) :
  skip_spaces s = [] -> Forall (fun c => isspace c = true) s.
Proof.
  induction s as [|a s IH]; simpl; [constructor|].
  destruct (isspace a) eqn:Ea; [|discriminate].
  intros E. constructor; auto.
Qed.

(** Whitespace in front of the input is skipped. *)
Lemma parse_loop_spaces (osize : Z) (ws s : list ascii) (out : list byte) :
  Forall (fun c => isspace c = true) ws ->
  parse_loop osize (ws ++ s) out = parse_loop osize s out.
Proof.
  induction 1 as [|c ws Hc _ IH]; [reflexivity|].
  cbn [app]. now rewrite parse_loop_skip_space.
Qed.

(** A turn of the loop that finds a word, on an input that goes on after a
    word break. *)
Lemma parse_loop_step_app (osize : Z) (s more : list ascii) (out : list byte)
  (c : ascii) (s1 w rest : list ascii) :
  word_break more = true ->
  s <> [] ->
  (Z.of_nat (length out) <? osize) = true ->
  skip_spaces s = c :: s1 ->
  word_span (c :: s1) = (w, rest) ->
  parse_loop osize (s ++ more) out =
  if Nat.ltb MAX_WORD_SIZE (length w) then Failed EINVAL
  else match kstrtou8 (c_str w) 16 with
       | None => Failed EINVAL
       | Some b => parse_loop osize (rest ++ more) (out ++ [b])
       end.
Proof.
  intros Hb Hs Hlt Hskip Hspan.
  rewrite parse_loop_step.
  assert (Hs' : negb (Nat.eqb (length (s ++ more)) 0) = true)
    by (destruct s; [congruence|reflexivity]).
  rewrite Hs', Hlt. cbn [andb].
  rewrite skip_spaces_app by congruence.
  rewrite Hskip.
  change ((c :: s1) ++ more) with (c :: s1 ++ more). cbv iota.
  change (c :: s1 ++ more) with ((c :: s1) ++ more).
  rewrite word_span_app by exact Hb.
  rewrite Hspan. reflexivity.
Qed.

(** Parsing an input that is split at a word break: the first part is
    parsed, and the loop goes on with the second part. *)
Lemma parse_loop_split (osize : Z) (s more : list ascii) (out : list byte) :
  word_break more = true ->
  parse_loop osize (s ++ more) out =
  match parse_loop osize s out with
  | Failed e => Failed e
  | Parsed bs => parse_loop osize more bs
  end.
Proof.
  intros Hb. funelim (parse_loop osize s out).
  - loop_guard.
    match goal with H : _ \/ _ |- _ => destruct H as [Hs|Hlt] end.
    + destruct s; [reflexivity|discriminate].
    + rewrite (parse_loop_step osize (s ++ more)), (parse_loop_step osize more).
      now rewrite Hlt, !andb_false_r.
  - apply parse_loop_spaces. apply skip_spaces_nil. assumption.
  - loop_guard.
    assert (Hne : s <> []) by (intros ->; discriminate).
    rewrite (parse_loop_step_app osize s more out c s1 w rest) by assumption.
    match goal with H : Nat.ltb _ _ = true |- _ => now rewrite H end.
  - loop_guard.
    assert (Hne : s <> []) by (intros ->; discriminate).
    rewrite (parse_loop_step_app osize s more out c s1 w rest) by assumption.
    repeat match goal with
           | H : Nat.ltb _ _ = _ |- _ => rewrite H
           | H : kstrtou8 _ _ = _ |- _ => rewrite H
           end.
    match goal with
    | IH : forall _ _ _ _, _ |- _ =>
        apply (IH osize rest more (out ++ [b]) Hb eq_refl eq_refl)
    end.
  - loop_guard.
    assert (Hne : s <> []) by (intros ->; discriminate).
    rewrite (parse_loop_step_app osize s more out c s1 w rest) by assumption.
    repeat match goal with
           | H : Nat.ltb _ _ = _ |- _ => rewrite H
           | H : kstrtou8 _ _ = _ |- _ => rewrite H
           end.
    reflexivity.
Qed.

(** The loop looks at the room left in [out], not at where [out] starts. *)
Lemma parse_loop_shift (osize osize2 : Z) (s : list ascii) (out out2 : list byte) :
  osize - Z.of_nat (length out) = osize2 - Z.of_nat (length out2) ->
  match parse_loop osize s out with
  | Failed e => parse_loop osize2 s out2 = Failed e
  | Parsed bs =>
      exists more, bs = out ++ more /\ parse_loop osize2 s out2 = Parsed (out2 ++ more)
  end.
Proof.
  remember (length s) as n eqn:Hn. revert s out out2 Hn.
  induction n as [n IH] using lt_wf_ind. intros s out out2 Hn Hsz.
  rewrite (parse_loop_step osize s out), (parse_loop_step osize2 s out2).
  assert (Hlt : (Z.of_nat (length out2) <? osize2) = (Z.of_nat (length out) <? osize)).
  { destruct (Z.ltb_spec (Z.of_nat (length out2)) osize2),
             (Z.ltb_spec (Z.of_nat (length out)) osize); lia || reflexivity. }
  rewrite Hlt.
  destruct (negb (Nat.eqb (length s) 0) && (Z.of_nat (length out) <? osize)).
  2: { exists []. now rewrite !app_nil_r. }
  destruct (skip_spaces s) as [|c s1] eqn:Hskip.
  { exists []. now rewrite !app_nil_r. }
  pose proof (word_rest_shorter s c s1 Hskip) as Hshort.
  destruct (word_span (c :: s1)) as [w rest] eqn:Hspan. cbn [snd] in Hshort.
  destruct (Nat.ltb MAX_WORD_SIZE (length w)); [reflexivity|].
  destruct (kstrtou8 (c_str w) 16) as [b|]; [|reflexivity].
  rewrite <- Hn in Hshort.
  specialize (IH (length rest) Hshort rest (out ++ [b]) (out2 ++ [b]) eq_refl).
  rewrite !length_app in IH. cbn [length] in IH.
  specialize (IH ltac:(lia)).
  destruct (parse_loop osize rest (out ++ [b])) as [bs|e]; [|exact IH].
  destruct IH as (more & -> & E).
  exists (b :: more). rewrite E, <- !app_assoc. split; reflexivity.
Qed.

(** The parser on an input that is split at a word break: the second part
    is parsed into the room the first part has left, and a failure in
    either part is the failure of the whole. *)
Theorem parse_hex_sentence_app (s more : list ascii) (osize : Z) :
  word_break more = true ->
  parse_hex_sentence (s ++ more) osize =
  match parse_hex_sentence s osize with
  | Failed e => Failed e
  | Parsed bs =>
      match parse_hex_sentence more (osize - Z.of_nat (length bs)) with
      | Failed e => Failed e
      | Parsed bs' => Parsed (bs ++ bs')
      end
  end.
Proof.
  intros Hb. unfold parse_hex_sentence. rewrite parse_loop_split by exact Hb.
  destruct (parse_loop osize s []) as [bs|e]; [|reflexivity].
  pose proof (parse_loop_shift (osize - Z.of_nat (length bs)) osize more [] bs) as H.
  cbn [length] in H. specialize (H ltac:(lia)).
  destruct (parse_loop (osize - Z.of_nat (length bs)) more []) as [bs'|e];
    [|exact H].
  destruct H as (x & -> & E). exact E.
Qed.

(** Whitespace before the first word and after the last one changes
    nothing, whether the sentence is legal or not. *)
Theorem parse_hex_sentence_blank_ends (ws1 s ws2 : list ascii) (osize : Z) :
  Forall (fun c => isspace c = true) ws1 ->
  Forall (fun c => isspace c = true) ws2 ->
  parse_hex_sentence (ws1 ++ s ++ ws2) osize = parse_hex_sentence s osize.
Proof.
  intros H1 H2. unfold parse_hex_sentence.
  rewrite parse_loop_spaces by exact H1.
  rewrite parse_loop_split by (destruct H2; [reflexivity|assumption]).
  destruct (parse_loop osize s []) as [bs|e]; [|reflexivity].
  rewrite <- (app_nil_r ws2), parse_loop_spaces by exact H2.
  rewrite parse_loop_step. reflexivity.
Qed.

Lemma word_span_word (w : list ascii) :
  Forall (fun c => isspace c = false) w -> word_span w = (w, []).
Proof.
  induction 1 as [|c w Hc _ IH]; [reflexivity|].
  cbn [word_span]. now rewrite Hc, IH.
Qed.

(** A turn of the loop on an input that starts with the word [w]. *)
Lemma parse_loop_word (osize : Z) (w post : list ascii) (out : list byte) :
  w <> [] ->
  Forall (fun c => isspace c = false) w ->
  word_break post = true ->
  (Z.of_nat (length out) <? osize) = true ->
  parse_loop osize (w ++ post) out =
  if Nat.ltb MAX_WORD_SIZE (length w) then Failed EINVAL
  else match kstrtou8 (c_str w) 16 with
       | None => Failed EINVAL
       | Some b => parse_loop osize post (out ++ [b])
       end.
Proof.
  intros Hne Hw Hb Hlt.
  destruct w as [|c s1]; [congruence|].
  apply (parse_loop_step_app osize (c :: s1) post out c s1 (c :: s1) []);
    try assumption.
  - cbn [skip_spaces]. inversion Hw as [|? ? Hc _]; subst. now rewrite Hc.
  - apply word_span_word. exact Hw.
Qed.

(** The loop after [pre] has been parsed to [bs], at the next word. *)
Lemma parse_loop_next_word (osize : Z) (pre gap w post : list ascii) (bs : list byte) :
  parse_hex_sentence pre osize = Parsed bs ->
  Forall (fun c => isspace c = true) gap ->
  pre = [] \/ gap <> [] ->
  parse_hex_sentence (pre ++ gap ++ w ++ post) osize
  = parse_loop osize (w ++ post) bs.
Proof.
  intros Hp Hgap Hsep. unfold parse_hex_sentence in *.
  destruct Hsep as [->|Hne].
  - rewrite parse_loop_step in Hp.
    cbn [length Nat.eqb negb andb] in Hp. injection Hp as <-.
    cbn [app]. now apply parse_loop_spaces.
  - rewrite parse_loop_split, Hp.
    + now apply parse_loop_spaces.
    + destruct Hgap as [|c gap Hc _]; [congruence|exact Hc].
Qed.

(** An illegal word, one of more than [MAX_WORD_SIZE] characters or one
    that [kstrtou8] rejects, makes the whole sentence fail with [-EINVAL]
    wherever it stands, as long as there is room in [out] when the parser
    gets to it; what comes after it is of no account. *)
Theorem parse_hex_sentence_illegal_word
  (pre gap w post : list ascii) (osize : Z) (bs : list byte) :
  parse_hex_sentence pre osize = Parsed bs ->
  Z.of_nat (length bs) < osize ->
  Forall (fun c => isspace c = true) gap ->
  pre = [] \/ gap <> [] ->
  w <> [] ->
  Forall (fun c => isspace c = false) w ->
  word_break post = true ->
  (MAX_WORD_SIZE < length w)%nat \/ kstrtou8 (c_str w) 16 = None ->
  parse_hex_sentence (pre ++ gap ++ w ++ post) osize = Failed EINVAL.
Proof.
  intros Hp Hroom Hgap Hsep Hne Hw Hb Hbad.
  rewrite (parse_loop_next_word osize pre gap w post bs Hp Hgap Hsep).
  assert (Hlt : (Z.of_nat (length bs) <? osize) = true) by now apply Z.ltb_lt.
  rewrite parse_loop_word by assumption.
  destruct Hbad as [Hlong|Hnone].
  - now replace (Nat.ltb MAX_WORD_SIZE (length w)) with true
      by (symmetry; now apply Nat.ltb_lt).
  - rewrite Hnone. now destruct (Nat.ltb MAX_WORD_SIZE (length w)).
Qed.

(** A legal word after a parsed sentence adds its byte to the bytes of the
    sentence. *)
Theorem parse_hex_sentence_next_word
  (pre gap w ws : list ascii) (osize : Z) (bs : list byte) (b : byte) :
  parse_hex_sentence pre osize = Parsed bs ->
  Z.of_nat (length bs) < osize ->
  Forall (fun c => isspace c = true) gap ->
  pre = [] \/ gap <> [] ->
  w <> [] ->
  Forall (fun c => isspace c = false) w ->
  (length w <= MAX_WORD_SIZE)%nat ->
  kstrtou8 (c_str w) 16 = Some b ->
  Forall (fun c => isspace c = true) ws ->
  parse_hex_sentence (pre ++ gap ++ w ++ ws) osize = Parsed (bs ++ [b]).
Proof.
  intros Hp Hroom Hgap Hsep Hne Hw Hlen Hk Hws.
  rewrite (parse_loop_next_word osize pre gap w ws bs Hp Hgap Hsep).
  assert (Hb : word_break ws = true)
    by (destruct Hws; [reflexivity|assumption]).
  assert (Hlt : (Z.of_nat (length bs) <? osize) = true) by now apply Z.ltb_lt.
  rewrite parse_loop_word by assumption.
  replace (Nat.ltb MAX_WORD_SIZE (length w)) with false
    by (symmetry; now apply Nat.ltb_ge).
  rewrite Hk, <- (app_nil_r ws), parse_loop_spaces by exact Hws.
  rewrite parse_loop_step. reflexivity.
Qed.

(** With less room the loop stores the first bytes of what it stores with
    more room. *)
Lemma parse_loop_truncate (m n : Z) (s : list ascii) (out bs : list byte) :
  parse_loop m s out = Parsed bs ->
  n <= m ->
  Z.of_nat (length out) <= n ->
  parse_loop n s out = Parsed (firstn (Z.to_nat n) bs).
Proof.
  remember (length s) as k eqn:Hk. revert s out Hk.
  induction k as [k IH] using lt_wf_ind. intros s out Hk Hp Hnm Hout.
  assert (Hfit : firstn (Z.to_nat n) out = out) by (apply firstn_all2; lia).
  rewrite parse_loop_step in Hp. rewrite parse_loop_step.
  destruct (Nat.eqb (length s) 0) eqn:Hs; cbn [negb andb] in *.
  { injection Hp as <-. now rewrite Hfit. }
  destruct (Z.ltb_spec (Z.of_nat (length out)) m) as [Hm|Hm].
  2: { injection Hp as <-. rewrite Hfit.
       now replace (Z.of_nat (length out) <? n) with false
         by (symmetry; apply Z.ltb_ge; lia). }
  destruct (skip_spaces s) as [|c s1] eqn:Hskip.
  { injection Hp as <-. rewrite Hfit.
    now destruct (Z.of_nat (length out) <? n). }
  pose proof (word_rest_shorter s c s1 Hskip) as Hshort.
  destruct (word_span (c :: s1)) as [w rest] eqn:Hspan. cbn [snd] in Hshort.
  destruct (Nat.ltb MAX_WORD_SIZE (length w)); [discriminate|].
  destruct (kstrtou8 (c_str w) 16) as [b|]; [|discriminate].
  destruct (Z.ltb_spec (Z.of_nat (length out)) n) as [Hn|Hn].
  - rewrite <- Hk in Hshort.
    apply (IH (length rest) Hshort rest (out ++ [b]) eq_refl Hp Hnm).
    rewrite length_app. cbn [length]. lia.
  - destruct (parse_loop_prefix _ _ _ _ Hp) as [more ->].
    replace (Z.to_nat n) with (length out) by lia.
    rewrite <- app_assoc, firstn_app, Nat.sub_diag, firstn_all.
    cbn [firstn]. now rewrite app_nil_r.
Qed.

(** The room in [out] only cuts the result short: with room for [n] bytes
    the parser returns the first [n] of the bytes it returns with room for
    more. *)
Theorem parse_hex_sentence_truncates
  (input : list ascii) (m n : Z) (bs : list byte) :
  parse_hex_sentence input m = Parsed bs ->
  0 <= n <= m ->
  parse_hex_sentence input n = Parsed (firstn (Z.to_nat n) bs).
Proof.
  intros Hp [H0 Hnm]. apply (parse_loop_truncate m n input [] bs Hp Hnm).
  cbn [length]. lia.
Qed.

End SentenceFacts.

(** ** The capacity of a request *)

Section CapacityFacts.

Context {K : KernelLib} {W : WilcoEc}.

(** What follows a word of a sentence does not continue the word. *)
Lemma sentence_word_break
  (items : list (list ascii * list ascii * byte)) (more : list ascii) :
  legal_items items ->
  gapped items ->
  word_break more = true ->
  word_break (sentence items ++ more) = true.
Proof.
  intros Hlegal Hgap Hmore.
  destruct items as [|[[gap w] b] items]; [exact Hmore|].
  inversion Hlegal as [|? ? [Hsp _] _]; subst.
  inversion Hgap as [|? ? Hne _]; subst.
  cbn [fst snd] in *. cbn [sentence].
  destruct gap as [|c gap]; [congruence|].
  inversion Hsp; subst. assumption.
Qed.

(** The loop on a sentence of legal words for which there is room: it
    stores the byte of every word and goes on with what follows. *)
Lemma parse_loop_sentence (osize : Z)
  (items : list (list ascii * list ascii * byte)) (more : list ascii)
  (out : list byte) :
  legal_items items ->
  gapped (tl items) ->
  word_break more = true ->
  Z.of_nat (length out + length items) <= osize ->
  parse_loop osize (sentence items ++ more) out
  = parse_loop osize more (out ++ sentence_bytes items).
Proof.
  revert out. induction items as [|[[gap w] b] items IH];
    intros out Hlegal Hgap Hmore Hroom.
  - cbn. now rewrite app_nil_r.
  - inversion Hlegal as [|? ? [Hsp (Hne & Hw & Hlen & Hk)] Hlegal']; subst.
    cbn [fst snd tl] in *.
    cbn [sentence sentence_bytes map snd].
    rewrite <- !app_assoc.
    rewrite parse_loop_spaces by exact Hsp.
    rewrite parse_loop_word; try assumption.
    + replace (Nat.ltb MAX_WORD_SIZE (length w)) with false
        by (symmetry; apply Nat.ltb_ge; exact Hlen).
      rewrite Hk.
      rewrite IH; try assumption.
      * now rewrite <- app_assoc.
      * destruct items; [constructor|].
        inversion Hgap; assumption.
      * rewrite length_app. cbn [length] in *. lia.
    + apply sentence_word_break; assumption.
    + apply Z.ltb_lt. cbn [length] in Hroom. lia.
Qed.

(** C7. On a text that starts with [osize] legal words, [parse_hex_sentence]
    returns the bytes of these words, [osize] in number, whatever words
    follow them, malformed ones included; it never returns more than
    [osize] bytes; and the [osize] that [raw_write] passes is
    [TYPE_AND_DATA_SIZE], the two type bytes and the mailbox data size: when
    the parser is given such a text, the message is built from the bytes
    of its first [TYPE_AND_DATA_SIZE] words and the rest is ignored. *)
Theorem parse_hex_sentence_stops_at_max
  (items : list (list ascii * list ascii * byte)) (more : list ascii)
  (osize : Z) :
  legal_sentence items ->
  Z.of_nat (length items) = osize ->
  items = [] \/ word_break more = true ->
  parse_hex_sentence (sentence items ++ more) osize
    = Parsed (sentence_bytes items) /\
  parse_ret (parse_hex_sentence (sentence items ++ more) osize) = osize /\
  (forall any bs',
     parse_hex_sentence any osize = Parsed bs' ->
     Z.of_nat (length bs') <= osize) /\
  (forall text ppos (d : wilco_ec_debugfs) kcount buf ppos',
     osize = EC_MAILBOX_DATA_SIZE + 2 ->
     3 <= osize ->
     Z.of_nat (length text) <= FORMATTED_BUFFER_SIZE ->
     simple_write_to_buffer (formatted_data d) FORMATTED_BUFFER_SIZE ppos text
       = (kcount, buf, ppos') ->
     0 <= kcount ->
     firstn (Z.to_nat kcount) buf = sentence items ++ more ->
     wr_mailbox (raw_write text ppos d) = [build_msg (sentence_bytes items)] /\
     2 + 1 + Msg.request_size (build_msg (sentence_bytes items))
       = EC_MAILBOX_DATA_SIZE + 2).
Proof.
  intros [Hlegal Hgap] Hn Hmore.
  assert (Hbytes : length (sentence_bytes items) = length items)
    by (unfold sentence_bytes; apply length_map).
  assert (E : parse_hex_sentence (sentence items ++ more) osize
              = Parsed (sentence_bytes items)).
  { destruct Hmore as [->|Hmore].
    - cbn in Hn. subst osize. apply parse_hex_sentence_no_room. lia.
    - unfold parse_hex_sentence.
      rewrite parse_loop_sentence by (try assumption; cbn [length]; lia).
      cbn [app]. rewrite parse_loop_step.
      replace (Z.of_nat (length (sentence_bytes items)) <? osize) with false
        by (symmetry; apply Z.ltb_ge; lia).
      now rewrite andb_false_r. }
  split; [exact E|]. split; [rewrite E; cbn [parse_ret]; lia|].
  split.
  { intros any bs' H. apply parse_hex_sentence_bound in H. lia. }
  intros text ppos d kcount buf ppos' Hosize H3 Hc Hcopy Hk Hbuf. split.
  - rewrite Hosize in E.
    change (EC_MAILBOX_DATA_SIZE + 2) with TYPE_AND_DATA_SIZE in E.
    rewrite <- Hbuf in E.
    rewrite (raw_write_sends text ppos d kcount buf ppos' _ Hc Hcopy Hk E) by lia.
    cbv zeta. destruct (wilco_ec_mailbox _ _ _) as [[ret resp] ec'].
    now destruct (ret <? 0).
  - unfold build_msg. cbn [Msg.request_size]. lia.
Qed.

End CapacityFacts.

(** ** More on the session *)

Section SessionMore.

Context {K : KernelLib} {W : WilcoEc}.

(** [raw_write] calls the mailbox, once, exactly when the text is not
    longer than the text buffer, the copy from user space does not fail and
    the parser finds at least three bytes in the first [kcount] characters
    of the text buffer.  Every other write leaves the device and the
    response as they were and returns [-EINVAL], or the error code of the
    copy.  What the parser is given is the text written when the file has
    just been opened; at another position it is not. *)
Theorem raw_write_accepts_iff
  (text : list ascii) (ppos : Z) (d : wilco_ec_debugfs)
  (kcount : Z) (buf : list ascii) (ppos' : Z) :
  simple_write_to_buffer (formatted_data d) FORMATTED_BUFFER_SIZE ppos text
    = (kcount, buf, ppos') ->
  let r := raw_write text ppos d in
  (length (wr_mailbox r) <= 1)%nat /\
  (wr_mailbox r <> [] <->
   Z.of_nat (length text) <= FORMATTED_BUFFER_SIZE /\
   0 <= kcount /\
   exists request_data,
     parse_hex_sentence (firstn (Z.to_nat kcount) buf) TYPE_AND_DATA_SIZE
       = Parsed request_data /\
     (3 <= length request_data)%nat) /\
  (wr_mailbox r = [] ->
   same_session (wr_info r) d /\
   (wr_ret r = - EINVAL \/ wr_ret r = kcount /\ kcount < 0)) /\
  (ppos = 0 -> copy_from_user text = 0 ->
   Z.of_nat (length text) <= FORMATTED_BUFFER_SIZE ->
   kcount = Z.of_nat (length text) /\ firstn (Z.to_nat kcount) buf = text).
Proof.
  intros Hcopy r. subst r.
  split; [|split; [|split]].
  - destruct (raw_write_mailbox_cases text ppos d)
      as [[_ E]|(k & b & p & rd & _ & _ & _ & _ & _ & E)];
      rewrite E; cbn; lia.
  - split.
    + intros Hne.
      destruct (raw_write_mailbox_cases text ppos d)
        as [[_ E]|(k & b & p & rd & Hc & Hcopy' & Hk & Hp & Hl & _)];
        [contradiction|].
      rewrite Hcopy in Hcopy'. injection Hcopy' as <- <- <-.
      split; [exact Hc|]. split; [exact Hk|]. exists rd. split; [exact Hp|lia].
    + intros (Hc & Hk & rd & Hp & Hl).
      rewrite (raw_write_sends text ppos d kcount buf ppos' rd Hc Hcopy Hk Hp)
        by lia.
      cbv zeta.
      destruct (wilco_ec_mailbox _ _ _) as [[ret resp] ec'].
      destruct (ret <? 0); discriminate.
  - intros Hnone.
    destruct (raw_write_mailbox_cases text ppos d)
      as [[Hearly _]|(k & b & p & rd & _ & _ & _ & _ & _ & E)];
      [|rewrite E in Hnone; discriminate].
    destruct (raw_write_rejected text ppos d Hearly) as (_ & Hsame & Hret).
    split; [exact Hsame|].
    rewrite Hcopy in Hret. cbn [fst] in Hret.
    destruct Hret as [E|[Hneg E]]; [left; exact E|right].
    split; [exact E|lia].
  - intros -> Huser Hc.
    rewrite (simple_write_to_buffer_start _ _ _ Huser Hc) in Hcopy.
    injection Hcopy as <- <- <-. split; [reflexivity|apply stored_text].
Qed.

(** Every message handed to the mailbox is within bounds: its type is a
    16-bit value, its request has from 0 to [EC_MAILBOX_DATA_SIZE - 1]
    bytes, [request_size] is the number of these bytes and is 0 exactly when
    [request_data] is the null pointer, and the response capacity it
    declares is not more than the [EC_MAILBOX_DATA_SIZE_EXTENDED] bytes of
    the buffer [response_data] points to. *)
Theorem raw_write_message_bounds
  (text : list ascii) (ppos : Z) (d : wilco_ec_debugfs)
  (msg : wilco_ec_message) :
  EC_MAILBOX_DATA_SIZE <= EC_MAILBOX_DATA_SIZE_EXTENDED ->
  In msg (wr_mailbox (raw_write text ppos d)) ->
  0 <= Msg.type msg < 65536 /\
  0 <= Msg.request_size msg <= EC_MAILBOX_DATA_SIZE - 1 /\
  Msg.request_size msg = Z.of_nat (length (payload msg)) /\
  (Msg.request_data msg = None <-> Msg.request_size msg = 0) /\
  Msg.response_size msg <= EC_MAILBOX_DATA_SIZE_EXTENDED.
Proof.
  intros Hcap Hin.
  destruct (raw_write_mailbox_cases text ppos d)
    as [[_ E]|(k & b & p & rd & _ & _ & _ & Hp & Hl & E)];
    rewrite E in Hin; cbn [In] in Hin; [contradiction|].
  destruct Hin as [<-|[]].
  pose proof (parse_hex_sentence_bound _ _ _ Hp) as Hb.
  unfold TYPE_AND_DATA_SIZE in Hb.
  unfold payload, build_msg.
  cbn [Msg.type Msg.request_data Msg.request_size Msg.response_size].
  rewrite be16_value.
  pose proof (Byte.to_N_bounded (nth 0 rd x00)) as H0.
  pose proof (Byte.to_N_bounded (nth 1 rd x00)) as H1.
  unfold u8_val.
  split; [lia|]. split; [lia|].
  destruct (Z.ltb_spec 3 (Z.of_nat (length rd))) as [H|H].
  - rewrite length_skipn. split; [lia|]. split; [split; [discriminate|lia]|].
    destruct (_ =? _); lia.
  - cbn [length]. split; [lia|]. split; [split; [lia|reflexivity]|].
    destruct (_ =? _); lia.
Qed.

(** A response is read once: whatever the session, the count and the file
    position, after a read the session is idle, with the device and
    [raw_data] as before, and a second read, of any count and at any
    position, copies out nothing and changes nothing. *)
Theorem raw_read_once (count ppos count2 ppos2 : Z) (d : wilco_ec_debugfs) :
  let d1 := rd_info (raw_read count ppos d) in
  state_of d1 = Idle /\
  ec d1 = ec d /\
  raw_data d1 = raw_data d /\
  raw_read count2 ppos2 d1
  = {| rd_ret := if ppos2 <? 0 then - EINVAL else 0;
       rd_text := []; rd_info := d1; rd_ppos := ppos2 |}.
Proof.
  intros d1.
  destruct (raw_read_info count ppos d) as (Hsz & Hec & Hraw).
  fold d1 in Hsz, Hec, Hraw.
  split; [unfold state_of; now rewrite Hsz|].
  split; [exact Hec|]. split; [exact Hraw|].
  apply raw_read_idle. exact Hsz.
Qed.

(** A write that the mailbox answers, followed by a read of [count]
    characters at file position [rpos]: the read copies from the dump of
    the first [ret] bytes of what the mailbox stored, and nothing of an
    earlier response; it uses up the response even when it copies only a
    part of the dump.  A read from the start of the file with room for the
    dump copies out all of it.  If the mailbox returned 0 the write has
    succeeded and the read copies out nothing. *)
Theorem raw_write_then_read
  (text : list ascii) (ppos : Z) (d : wilco_ec_debugfs)
  (kcount : Z) (buf : list ascii) (ppos' : Z) (request_data : list byte)
  (ret : Z) (response : list byte) (ec' : wilco_ec_device)
  (fmt_len : Z) (line : list ascii) (count rpos : Z) :
  Z.of_nat (length text) <= FORMATTED_BUFFER_SIZE ->
  simple_write_to_buffer (formatted_data d) FORMATTED_BUFFER_SIZE ppos text
    = (kcount, buf, ppos') ->
  0 <= kcount ->
  parse_hex_sentence (firstn (Z.to_nat kcount) buf) TYPE_AND_DATA_SIZE
    = Parsed request_data ->
  (3 <= length request_data)%nat ->
  wilco_ec_mailbox (ec d) (build_msg request_data)
    (repeat x00 (Z.to_nat EC_MAILBOX_DATA_SIZE_EXTENDED)) = (ret, response, ec') ->
  0 <= ret ->
  hex_dump_to_buffer response ret 16 1 FORMATTED_BUFFER_SIZE true
    = (fmt_len, line) ->
  let r := raw_write text ppos d in
  let rd := raw_read count rpos (wr_info r) in
  state_of (wr_info r) = (if ret =? 0 then Idle else HasResponse) /\
  (ret = 0 -> rd_text rd = [] /\ rd_info rd = wr_info r) /\
  (ret <> 0 ->
   (rd_ret rd, rd_text rd, rd_ppos rd)
     = simple_read_from_buffer count rpos (buf_store line buf) fmt_len /\
   (rpos = 0 -> 0 <= fmt_len <= count ->
    fmt_len <= Z.of_nat (length line) ->
    copy_to_user (firstn (Z.to_nat fmt_len) line) = 0 ->
    rd_ret rd = fmt_len /\ rd_text rd = firstn (Z.to_nat fmt_len) line)) /\
  state_of (rd_info rd) = Idle /\
  ec (rd_info rd) = ec' /\
  raw_data (rd_info rd) = response.
Proof.
  intros Hc Hcopy Hk Hp Hl Hm Hret Hdump r rd.
  assert (Hr : wr_info r = {| ec := ec'; response_size := ret;
                              raw_data := response; formatted_data := buf |}).
  { subst r.
    rewrite (raw_write_sends text ppos d kcount buf ppos' request_data
               Hc Hcopy Hk Hp) by lia.
    cbv zeta. rewrite Hm.
    replace (ret <? 0) with false by (symmetry; apply Z.ltb_ge; exact Hret).
    reflexivity. }
  destruct (raw_read_info count rpos (wr_info r)) as (Hsz & Hec & Hraw).
  fold rd in Hsz, Hec, Hraw. rewrite Hr in Hec, Hraw. cbn in Hec, Hraw.
  split; [rewrite Hr; reflexivity|].
  split; [|split; [|split; [unfold state_of; now rewrite Hsz|auto]]].
  - intros ->. subst rd. rewrite raw_read_idle by (rewrite Hr; reflexivity).
    cbn. auto.
  - intros Hne.
    assert (Hrd : (rd_ret rd, rd_text rd, rd_ppos rd)
                  = simple_read_from_buffer count rpos (buf_store line buf)
                                            fmt_len).
    { subst rd. rewrite Hr.
      rewrite (raw_read_response count rpos _ fmt_len line);
        [|exact Hne|exact Hdump].
      cbv zeta. cbn [formatted_data].
      destruct (simple_read_from_buffer _ _ _ _) as [[n copied] p].
      reflexivity. }
    split; [exact Hrd|].
    intros -> Hfmt Hline Huser.
    assert (Hhead : firstn (Z.to_nat fmt_len) (buf_store line buf)
                    = firstn (Z.to_nat fmt_len) line).
    { unfold buf_store. rewrite firstn_app.
      replace (Z.to_nat fmt_len - length line)%nat with 0%nat by lia.
      cbn [firstn]. apply app_nil_r. }
    rewrite simple_read_from_buffer_whole in Hrd;
      [|exact Hfmt|rewrite Hhead; exact Huser].
    rewrite Hhead in Hrd. injection Hrd as -> -> _. auto.
Qed.

(** What the return value tells the writer: it is not negative exactly
    when the request went to the mailbox and the mailbox did not fail, and
    then it is the length of the text, also when the text buffer had room
    for a part of the text only. *)
Theorem raw_write_succeeds_iff
  (text : list ascii) (ppos : Z) (d : wilco_ec_debugfs)
  (kcount : Z) (buf : list ascii) (ppos' : Z) :
  0 < EINVAL ->
  simple_write_to_buffer (formatted_data d) FORMATTED_BUFFER_SIZE ppos text
    = (kcount, buf, ppos') ->
  (0 <= wr_ret (raw_write text ppos d) <->
   Z.of_nat (length text) <= FORMATTED_BUFFER_SIZE /\
   0 <= kcount /\
   exists request_data,
     parse_hex_sentence (firstn (Z.to_nat kcount) buf) TYPE_AND_DATA_SIZE
       = Parsed request_data /\
     (3 <= length request_data)%nat /\
     0 <= fst (fst (wilco_ec_mailbox (ec d) (build_msg request_data)
                      (repeat x00 (Z.to_nat EC_MAILBOX_DATA_SIZE_EXTENDED))))) /\
  (0 <= wr_ret (raw_write text ppos d) ->
   wr_ret (raw_write text ppos d) = Z.of_nat (length text)).
Proof.
  intros Hpos Hcopy.
  destruct (raw_write_mailbox_cases text ppos d)
    as [[Hearly _]|(k & b & p & rd & Hc & Hcopy' & Hk & Hp & Hl & _)].
  - destruct (raw_write_rejected text ppos d Hearly) as (_ & _ & Hret).
    assert (Hneg : wr_ret (raw_write text ppos d) < 0)
      by (destruct Hret as [->|[H _]]; lia).
    split; [split|]; try lia.
    intros (Hc & Hk & rd & Hp & Hl & _). exfalso.
    unfold returns_early in Hearly. rewrite Hcopy, Hp in Hearly.
    destruct Hearly as [H|[H|H]]; lia.
  - rewrite Hcopy in Hcopy'. injection Hcopy' as <- <- <-.
    rewrite (raw_write_sends text ppos d kcount buf ppos' rd Hc Hcopy Hk Hp Hl).
    cbv zeta.
    destruct (wilco_ec_mailbox _ _ _) as [[ret resp] ec'] eqn:Hm.
    destruct (Z.ltb_spec ret 0) as [Hr|Hr]; cbn [wr_ret].
    + split; [split|]; try lia.
      intros (_ & _ & rd' & H & _ & Hret). rewrite Hp in H. injection H as <-.
      rewrite Hm in Hret. cbn [fst] in Hret. lia.
    + split; [split|]; try lia. intros _.
      split; [exact Hc|]. split; [exact Hk|]. exists rd. rewrite Hm. cbn [fst].
      split; [exact Hp|]. split; [lia|exact Hr].
Qed.

(** The probe returns 0 whatever happens.  It asks for the file [raw] only
    when it has a [debug_info] and a directory, and the session it has then
    set up is attached to the parent's device, has arrays of the declared
    sizes and is idle: a first read, of any count and at any position,
    copies out nothing and changes nothing. *)
Theorem probe_sets_up_idle_session
  (drvdata : wilco_ec_device) (devm_kzalloc debugfs_create_dir : bool) :
  let p := wilco_ec_debugfs_probe drvdata devm_kzalloc debugfs_create_dir in
  probe_ret p = 0 /\
  (probe_raw p = true <-> devm_kzalloc = true /\ debugfs_create_dir = true) /\
  (probe_info p = None <-> devm_kzalloc = false) /\
  (forall d, probe_info p = Some d ->
     ec d = drvdata /\ well_sized d /\ state_of d = Idle /\
     forall count ppos,
       raw_read count ppos d
       = {| rd_ret := if ppos <? 0 then - EINVAL else 0;
            rd_text := []; rd_info := d; rd_ppos := ppos |}).
Proof.
  unfold wilco_ec_debugfs_probe.
  destruct devm_kzalloc, debugfs_create_dir; cbn [negb probe_ret probe_raw probe_info];
    (split; [reflexivity|]); (split; [intuition congruence|]);
    (split; [intuition congruence|]); intros d Hd; try discriminate;
    injection Hd as <-; unfold well_sized, state_of;
    cbn [ec raw_data formatted_data response_size]; rewrite !repeat_length;
    repeat split; intros; apply raw_read_idle; reflexivity.
Qed.

End SessionMore.

(** ** The properties on sample sessions *)

(** The sentences of the driver's header comment and of the spec. *)
Example parse_sentence :
  parse_hex_sentence (text "00 f0 38 00 03 00") TYPE_AND_DATA_SIZE
  = Parsed [x00; xf0; x38; x00; x03; x00].
Proof. reflexivity. Qed.

Example parse_spaced_sentence :
  parse_hex_sentence (text "   00 f2 0    000076 6 0  ff") TYPE_AND_DATA_SIZE
  = Parsed [x00; xf2; x00; x76; x06; x00; xff].
Proof. reflexivity. Qed.

Example parse_long_word :
  parse_hex_sentence (text "0123456789abcdef0") TYPE_AND_DATA_SIZE = Failed EINVAL.
Proof. reflexivity. Qed.

Example parse_bad_word :
  parse_hex_sentence (text "zz") TYPE_AND_DATA_SIZE = Failed EINVAL.
Proof. reflexivity. Qed.


(** A write to a file just opened, then the read that gets the response,
    then a read that gets nothing. *)
Example write_then_read_twice :
  let w := raw_write (text "00 f0 38 00 03 00") 0
             (fresh_session [(2, [x31; x32])]) in
  let r1 := raw_read 1024 0 (wr_info w) in
  let r2 := raw_read 1024 (rd_ppos r1) (rd_info r1) in
  wr_ret w = 17 /\ wr_ppos w = 17 /\
  string_of_list_ascii (rd_text r1) =
    "31 32                                            12"%string /\
  rd_ret r1 = 51 /\
  rd_text r2 = [] /\ rd_ret r2 = 0.
Proof. vm_compute. repeat split; reflexivity. Qed.

(** The example of the header comment: the line that [cat raw] shows. *)
Example header_comment_example :
  let w := raw_write (text "00 f0 38 00 03 00") 0
             (fresh_session [(16, build_date)]) in
  string_of_list_ascii (rd_text (raw_read 4096 0 (wr_info w))) =
    "00 31 32 2f 32 31 2f 31 38 00 38 00 01 00 2f 00  .12/21/18.8.../."%string.
Proof. vm_compute. reflexivity. Qed.

(** A read of ten characters gets the first ten of the line and uses up the
    response: the rest of the line is not to be had. *)
Example short_read_uses_up_response :
  let r1 := raw_read 10 0 (unread_session []) in
  let r2 := raw_read 1024 (rd_ppos r1) (rd_info r1) in
  string_of_list_ascii (rd_text r1) = "31 32     "%string /\
  rd_ppos r1 = 10 /\
  rd_text r2 = [] /\ rd_ret r2 = 0.
Proof. vm_compute. repeat split; reflexivity. Qed.

(** C8 on three blanks. *)
Lemma parse_hex_sentence_whitespace_witness :
  parse_hex_sentence (text "   ") 34 = Parsed [] /\
  parse_ret (parse_hex_sentence (text "   ") 34) = 0.
Proof.
  apply (parse_hex_sentence_whitespace (text "   ") 34).
  repeat constructor.
Defined.

(** C7 on a text of thirty-four good words followed by a word that is no
    number and one that is too long. *)
Lemma parse_hex_sentence_stops_at_max_witness :
  let more := text " zz 0123456789abcdef0" in
  parse_hex_sentence (sentence full_request ++ more) 34
    = Parsed ([x00; xf0; x38] ++ repeat x2a 31) /\
  wr_mailbox (raw_write (sentence full_request ++ more) 0 (fresh_session []))
    = [build_msg ([x00; xf0; x38] ++ repeat x2a 31)].
Proof.
  intros more.
  destruct (parse_hex_sentence_stops_at_max (K := kernel_model)
              (W := wilco_ec_scripted) full_request more 34)
    as (Hparse & _ & _ & Hwrite).
  - split.
    + repeat constructor; try discriminate;
        cbn [fst snd length MAX_WORD_SIZE]; lia.
    + repeat constructor; discriminate.
  - reflexivity.
  - right. reflexivity.
  - split; [exact Hparse|].
    apply (Hwrite (sentence full_request ++ more) 0 (fresh_session [])
             122 (buf_store (sentence full_request ++ more) (repeat zero 1024))
             122).
    + reflexivity.
    + discriminate.
    + vm_compute. discriminate.
    + vm_compute. reflexivity.
    + lia.
    + vm_compute. reflexivity.
Defined.

(** C9 on a request of the extended type. *)
Lemma raw_write_flags_witness :
  let msg := build_msg [x00; xf6; x01] in
  Z.land (Msg.flags msg) WILCO_EC_FLAG_RAW = WILCO_EC_FLAG_RAW /\
  (Z.land (Msg.flags msg) WILCO_EC_FLAG_EXTENDED_DATA = WILCO_EC_FLAG_EXTENDED_DATA
   <-> Msg.type msg = WILCO_EC_MSG_TELEMETRY_LONG).
Proof.
  apply (raw_write_flags (text "00 f6 01") 0 (fresh_session [(2, [x31; x32])])).
  - reflexivity.
  - discriminate.
  - vm_compute. left. reflexivity.
Defined.

(** C10 on a text of forty-three words, of which thirty-four are parsed:
    the write returns the 128 characters of the text. *)
Lemma raw_write_returns_count_witness :
  let r := raw_write long_telemetry_text 0 (fresh_session [(2, [x31; x32])]) in
  wr_ret r = 128 /\
  response_size (wr_info r) = 2 /\
  raw_data (wr_info r) = buf_store [x31; x32] (repeat x00 256) /\
  wr_ppos r = 128.
Proof.
  intros r.
  destruct (raw_write_returns_count long_telemetry_text 0
              (fresh_session [(2, [x31; x32])])
              128 (buf_store long_telemetry_text (repeat zero 1024)) 128
              ([x00; xf6; x01] ++ repeat x2a 31) 2
              (buf_store [x31; x32] (repeat x00 256)) [])
    as (H1 & H2 & H3 & H4 & _).
  - vm_compute. discriminate.
  - vm_compute. reflexivity.
  - lia.
  - vm_compute. reflexivity.
  - simpl. lia.
  - reflexivity.
  - lia.
  - fold r in H1, H2, H3, H4. rewrite H1, H2, H3, H4.
    repeat split; reflexivity.
Defined.

(** C5, as the driver has it, on the long request of the extended type. *)
Lemma raw_write_request_framing_witness :
  exists msg,
    wr_mailbox (raw_write long_telemetry_text 0 (fresh_session [])) = [msg] /\
    Msg.type msg = 246 /\
    Msg.command msg = x01 /\
    payload msg = repeat x2a 31 /\
    Msg.response_size msg = 256 /\
    Msg.flags msg = 14.
Proof.
  destruct (raw_write_request_framing long_telemetry_text 0 (fresh_session [])
              128 (buf_store long_telemetry_text (repeat zero 1024)) 128
              ([x00; xf6; x01] ++ repeat x2a 31))
    as (_ & msg & Hm & Ht & Hcmd & Hp & _ & Hr & Hf & _).
  - vm_compute. discriminate.
  - vm_compute. reflexivity.
  - lia.
  - vm_compute. reflexivity.
  - simpl. lia.
  - exists msg. rewrite Ht in Hr, Hf.
    repeat split; assumption.
Defined.

(** C5, as stated, fails: a request of the extended type is cut at the
    default capacity like any other; of the forty bytes after the command
    the mailbox gets thirty-one. *)
Lemma extended_request_is_cut :
  ~ extended_request_capacity long_telemetry_text (fresh_session []).
Proof.
  intros H.
  destruct (H ([x00; xf6; x01] ++ repeat x2a 40)) as (msg & Hm & Hp).
  - vm_compute. reflexivity.
  - simpl. lia.
  - reflexivity.
  - vm_compute in Hm. injection Hm as <-. vm_compute in Hp. discriminate Hp.
Qed.

(** C2, as the driver has it, on a session with the response [31 32]
    unread, a write that will be answered with [41 42 43] and a read of the
    whole text: the reader gets the dump of two zero bytes. *)
Lemma overlapping_calls_witness :
  exists ret,
    option_map (fun rs => (fst rs, string_of_list_ascii (snd rs)))
      (returned (run [Writer; Writer; Reader; Reader; Reader; Writer; Writer]
                     (overlap_start (text "00 f0 38") 0 1024 0
                        (unread_session [(3, [x41; x42; x43])]))))
    = Some (ret, "00 00                                            .."%string).
Proof.
  destruct (overlapping_calls (text "00 f0 38") 0 1024 0
              (unread_session [(3, [x41; x42; x43])])
              8 (buf_store (text "00 f0 38")
                   (buf_store (text "00 f0 38 00 03 00") (repeat zero 1024)))
              8 [x00; xf0; x38])
    as (_ & _ & (ret & H) & _).
  - vm_compute. discriminate.
  - vm_compute. reflexivity.
  - lia.
  - vm_compute. reflexivity.
  - simpl. lia.
  - discriminate.
  - exists ret. rewrite H. vm_compute. reflexivity.
Defined.

(** C2, as stated, fails: with the response [31 32] unread, a read that
    runs between the [memset] and the mailbox call of a write gets the dump
    of two zero bytes, which is neither the dump of [31 32] from before the
    write nor that of [41 42 43] from after it. *)
Lemma overlapping_read_sees_cleared_buffer :
  ~ read_sees_before_or_after (text "00 f0 38") 0 1024 0
      (unread_session [(3, [x41; x42; x43])]).
Proof.
  intros H.
  destruct (H [Writer; Writer; Reader; Reader; Reader; Writer; Writer]
              8 (text "00 00                                            ..")
              ltac:(vm_compute; reflexivity))
    as [E|E]; vm_compute in E; discriminate E.
Qed.



(** C1 on a session that holds the unread response [31 32] when the mailbox
    fails with [-EIO]: [raw_write] returns the error and has cleared
    [raw_data], but [response_size] is still 2, and the next read copies
    out the dump of two zero bytes instead of nothing. *)
Theorem raw_write_transport_error_stale_size :
  let d := unread_session [(-5, [])] in
  let r := raw_write (text "00 f0 38") 0 d in
  let rd := raw_read 1024 0 (wr_info r) in
  state_of d = HasResponse /\
  wr_ret r = -5 /\
  wr_mailbox r = [build_msg [x00; xf0; x38]] /\
  raw_data (wr_info r) = repeat x00 256 /\
  response_size (wr_info r) = 2 /\
  state_of (wr_info r) = HasResponse /\
  string_of_list_ascii (rd_text rd) =
    "00 00                                            .."%string /\
  rd_ret rd = 51 /\
  rd_text rd <> [].
Proof.
  vm_compute. repeat split; try reflexivity. discriminate.
Qed.

(** C4 on two writes to one open file.  The first, the sentence of the
    header comment, is answered with [31 32] and leaves the file position
    at 17.  The second, [00 f0 zz], is a text that the parser rejects; it is
    stored at offset 17, but the parser is given the first eight characters
    of the text buffer, [00 f0 38] of the first sentence: the write is
    accepted, the response [31 32] is cleared unread and the request of the
    first write is sent again.  Written to a file just opened, the text is
    rejected and the response kept. *)
Theorem raw_write_malformed_text_accepted :
  let d := unread_session [(1, [x41])] in
  let r := raw_write (text "00 f0 zz") 17 d in
  parse_hex_sentence (text "00 f0 zz") TYPE_AND_DATA_SIZE = Failed EINVAL /\
  state_of d = HasResponse /\
  wr_ret r = 8 /\
  wr_mailbox r = [build_msg [x00; xf0; x38]] /\
  response_size (wr_info r) = 1 /\
  raw_data (wr_info r) = buf_store [x41] (repeat x00 256) /\
  string_of_list_ascii (rd_text (raw_read 1024 0 d)) =
    "31 32                                            12"%string /\
  string_of_list_ascii (rd_text (raw_read 1024 0 (wr_info r))) =
    "41                                               A"%string /\
  ~ malformed_write_rejected (text "00 f0 zz") 17 d /\
  malformed_write_rejected (text "00 f0 zz") 0 d.
Proof.
  intros d r.
  assert (Hret : wr_ret r = 8) by (vm_compute; reflexivity).
  split; [vm_compute; reflexivity|].
  split; [vm_compute; reflexivity|].
  split; [exact Hret|].
  split; [vm_compute; reflexivity|].
  split; [vm_compute; reflexivity|].
  split; [vm_compute; reflexivity|].
  split; [vm_compute; reflexivity|].
  split; [vm_compute; reflexivity|].
  split.
  - intros H. destruct (H EINVAL) as (E & _); [vm_compute; reflexivity|].
    fold r in E. rewrite Hret in E. vm_compute in E. discriminate E.
  - intros e He.
    assert (Ee : e = EINVAL)
      by (unfold parse_hex_sentence in He; now apply parse_loop_failed in He).
    subst e. apply (raw_write_rejected_at_start (K := kernel_model));
      [reflexivity|]. now rewrite He.
Qed.

(** C6 on two writes to one open file.  After the sentence of the header
    comment, answered with [31 32], the text [00 f0] and three blanks
    parses to two bytes; written at the file position 17 it is accepted,
    because the parser is given [00 f0 38] from the start of the text
    buffer: the mailbox is called and the unread response is cleared.
    Written to a file just opened, the text is rejected. *)
Theorem raw_write_short_text_accepted :
  let d := unread_session [(1, [x41])] in
  let r := raw_write (text "00 f0   ") 17 d in
  parse_hex_sentence (text "00 f0   ") TYPE_AND_DATA_SIZE = Parsed [x00; xf0] /\
  wr_ret r = 8 /\
  wr_mailbox r = [build_msg [x00; xf0; x38]] /\
  response_size d = 2 /\
  response_size (wr_info r) = 1 /\
  raw_data d = buf_store [x31; x32] (repeat x00 256) /\
  raw_data (wr_info r) = buf_store [x41] (repeat x00 256) /\
  ~ short_write_rejected (text "00 f0   ") 17 d /\
  short_write_rejected (text "00 f0   ") 0 d.
Proof.
  intros d r.
  assert (Hret : wr_ret r = 8) by (vm_compute; reflexivity).
  split; [vm_compute; reflexivity|].
  split; [exact Hret|].
  split; [vm_compute; reflexivity|].
  split; [vm_compute; reflexivity|].
  split; [vm_compute; reflexivity|].
  split; [vm_compute; reflexivity|].
  split; [vm_compute; reflexivity|].
  split.
  - intros H. destruct (H [x00; xf0]) as (E & _);
      [vm_compute; reflexivity|simpl; lia|].
    fold r in E. rewrite Hret in E. vm_compute in E. discriminate E.
  - intros bytes Hb Hlen. apply (raw_write_rejected_at_start (K := kernel_model));
      [reflexivity|]. rewrite Hb. lia.
Qed.

(** *** The further properties on samples *)

(** A sentence split after its second word. *)
Lemma parse_hex_sentence_app_witness :
  parse_hex_sentence (text "00 f0" ++ text " 38 00 03 00") 34
  = Parsed ([x00; xf0] ++ [x38; x00; x03; x00]).
Proof.
  rewrite (parse_hex_sentence_app (text "00 f0") (text " 38 00 03 00") 34).
  - reflexivity.
  - reflexivity.
Defined.

(** The sentence of the header comment as [echo] writes it, with a newline
    at its end, and with blanks in front. *)
Lemma parse_hex_sentence_blank_ends_witness :
  parse_hex_sentence (text "  " ++ text "00 f0 38 00 03 00" ++ ["010"%char]) 34
  = Parsed [x00; xf0; x38; x00; x03; x00].
Proof.
  rewrite (parse_hex_sentence_blank_ends (text "  ") (text "00 f0 38 00 03 00")
             ["010"%char] 34).
  - reflexivity.
  - repeat constructor.
  - repeat constructor.
Defined.

(** Seventeen zeros are no legal word, though their value is 0. *)
Lemma parse_hex_sentence_illegal_word_witness :
  parse_hex_sentence
    (text "00 f0" ++ text " " ++ text "00000000000000000" ++ text " 38") 34
  = Failed EINVAL.
Proof.
  apply (parse_hex_sentence_illegal_word
           (text "00 f0") (text " ") (text "00000000000000000") (text " 38")
           34 [x00; xf0]).
  - reflexivity.
  - simpl. lia.
  - repeat constructor.
  - right. discriminate.
  - discriminate.
  - repeat constructor.
  - reflexivity.
  - left. unfold MAX_WORD_SIZE. simpl. lia.
Defined.

Lemma parse_hex_sentence_next_word_witness :
  parse_hex_sentence
    (text "00 f0" ++ text "   " ++ text "000076" ++ ["010"%char]) 34
  = Parsed ([x00; xf0] ++ [x76]).
Proof.
  apply (parse_hex_sentence_next_word
           (text "00 f0") (text "   ") (text "000076") ["010"%char]
           34 [x00; xf0] x76).
  - reflexivity.
  - simpl. lia.
  - repeat constructor.
  - right. discriminate.
  - discriminate.
  - repeat constructor.
  - unfold MAX_WORD_SIZE. simpl. lia.
  - reflexivity.
  - repeat constructor.
Defined.

(** With room for three bytes, the first three of the six. *)
Lemma parse_hex_sentence_truncates_witness :
  parse_hex_sentence (text "00 f0 38 00 03 00") 3 = Parsed [x00; xf0; x38].
Proof.
  apply (parse_hex_sentence_truncates (text "00 f0 38 00 03 00") 34 3
           [x00; xf0; x38; x00; x03; x00]).
  - reflexivity.
  - lia.
Defined.

(** The bounds on the message of the long request of the extended type. *)
Lemma raw_write_message_bounds_witness :
  let msg := build_msg ([x00; xf6; x01] ++ repeat x2a 31) in
  0 <= Msg.type msg < 65536 /\
  0 <= Msg.request_size msg <= 31 /\
  Msg.request_size msg = Z.of_nat (length (payload msg)) /\
  (Msg.request_data msg = None <-> Msg.request_size msg = 0) /\
  Msg.response_size msg <= 256.
Proof.
  apply (raw_write_message_bounds long_telemetry_text 0 (fresh_session [])).
  - discriminate.
  - vm_compute. left. reflexivity.
Defined.

(** The mailbox is called for the text [00 f0 zz] written at the file
    position 17, after the sentence of the header comment. *)
Lemma raw_write_accepts_iff_witness :
  wr_mailbox (raw_write (text "00 f0 zz") 17 (unread_session [(1, [x41])])) <> [].
Proof.
  destruct (raw_write_accepts_iff (text "00 f0 zz") 17
              (unread_session [(1, [x41])])
              8 (store_at 17 (text "00 f0 zz")
                   (buf_store (text "00 f0 38 00 03 00") (repeat zero 1024)))
              25)
    as (_ & Hiff & _).
  - vm_compute. reflexivity.
  - apply Hiff. split; [vm_compute; discriminate|]. split; [lia|].
    exists [x00; xf0; x38]. split; [vm_compute; reflexivity|simpl; lia].
Defined.

(** A write that the controller answers with [41 42 43], and the read of
    the whole text after it. *)
Lemma raw_write_then_read_witness :
  let r := raw_write (text "00 f0 38") 0 (unread_session [(3, [x41; x42; x43])]) in
  let rd := raw_read 1024 0 (wr_info r) in
  state_of (wr_info r) = HasResponse /\
  string_of_list_ascii (rd_text rd) =
    "41 42 43                                         ABC"%string /\
  state_of (rd_info rd) = Idle.
Proof.
  intros r rd.
  destruct (raw_write_then_read (text "00 f0 38") 0
              (unread_session [(3, [x41; x42; x43])])
              8 (buf_store (text "00 f0 38")
                   (buf_store (text "00 f0 38 00 03 00") (repeat zero 1024)))
              8 [x00; xf0; x38] 3
              (buf_store [x41; x42; x43] (repeat x00 256)) []
              52 (text "41 42 43                                         ABC"
                  ++ [zero])
              1024 0)
    as (Hstate & _ & Hread & Hidle & _).
  - vm_compute. discriminate.
  - vm_compute. reflexivity.
  - lia.
  - vm_compute. reflexivity.
  - simpl. lia.
  - vm_compute. reflexivity.
  - lia.
  - vm_compute. reflexivity.
  - fold r in Hstate, Hread, Hidle. fold rd in Hread, Hidle.
    split; [exact Hstate|]. split; [|exact Hidle].
    destruct Hread as (_ & Hwhole); [discriminate|].
    destruct Hwhole as (_ & ->); [reflexivity|lia|vm_compute; discriminate
                                 |reflexivity|].
    vm_compute. reflexivity.
Defined.

(** The return value of the write of the long request: the 128 characters
    of the text. *)
Lemma raw_write_succeeds_iff_witness :
  let r := raw_write long_telemetry_text 0 (fresh_session [(2, [x31; x32])]) in
  0 <= wr_ret r /\ wr_ret r = 128.
Proof.
  intros r.
  destruct (raw_write_succeeds_iff long_telemetry_text 0
              (fresh_session [(2, [x31; x32])])
              128 (buf_store long_telemetry_text (repeat zero 1024)) 128)
    as (_ & H).
  - reflexivity.
  - vm_compute. reflexivity.
  - assert (H0 : 0 <= wr_ret r) by (vm_compute; discriminate).
    split; [exact H0|]. fold r in H. rewrite (H H0). reflexivity.
Defined.
